(** * PyKineMod: the simulation engine [Simulate] (src/PyKineMod/simulate.py)

    A shallow embedding of the class [Simulate] and proofs about its
    constructor, its mole-balance right-hand side and [run_simulation].

    Part I holds the definitions:
    - [Py]      : Python exceptions and the result / state monads;
    - [NumPy]   : the fragment of numpy the engine uses, on arrays of
                  dimension at most two, with numpy's shape checks and
                  broadcasting written out;
    - [Engine]  : the object [self], the collaborators of the class
                  (data container, extent decomposition, scipy, numpy.random)
                  and the methods of simulate.py;
    - [Spec]    : the vocabulary in which the properties are stated;
    - [Exact]   : an instance over exact rationals, and [Decay], a reactor
                  built on it.
    Part II holds the proofs: facts about the monads and the arrays, the
    constructor, the mole balance, one run, and then the properties of the
    engine, each followed at the end by its use on the reactor of [Decay]. *)

From Stdlib Require Import ZArith QArith Qcanon Lia.
From stdpp Require Import base option list strings gmap.

(* ===================================================================== *)
(** * Part I: the program and the vocabulary of its properties *)
(* ===================================================================== *)

(* ===================================================================== *)
(** ** Python: exceptions, results, state *)
(* ===================================================================== *)

Module Py.

(** The text of the f-string messages of simulate.py, kept structured: each
    constructor carries the values interpolated into the message. *)
Inductive message :=
| Msg_n0_none                                        (* "n0 cannot be None" *)
| Msg_Mw (Mw_shape : list nat) (S : nat) (N_shape : list nat)
| Msg_Winhat (Winhat_shape : list nat) (S P : nat) (N_shape : list nat)
| Msg_uin (uin_shape Win_shape : list nat)
| Msg_n0 (S : nat) (received : nat)
| Msg_numpy (what : string) (left right : list nat). (* raised inside numpy *)

Inductive exn :=
| ValueError (m : message)
| AttributeError (attr : string)
| IndexError
| LinAlgError
| NotModelled (what : string)      (* an array of dimension three or more *)
| Foreign (tag : string).          (* raised by a caller-supplied callable *)

Inductive Result (A : Type) :=
| Ok (a : A)
| Raise (e : exn).
Arguments Ok {A} a.
Arguments Raise {A} e.

#[global] Instance Result_ret : MRet Result := fun A a => Ok a.
#[global] Instance Result_bind : MBind Result := fun A B f r =>
  match r with
  | Ok a => f a
  | Raise e => Raise e
  end.
#[global] Instance Result_fmap : FMap Result := fun A B f r =>
  match r with
  | Ok a => Ok (f a)
  | Raise e => Raise e
  end.

(** [[f(x) for x in l]] with a body that may raise: left to right, the first
    exception wins. *)
Fixpoint mapR {A B} (f : A → Result B) (l : list A) : Result (list B) :=
  match l with
  | [] => Ok []
  | x :: l' => y ← f x; ys ← mapR f l'; Ok (y :: ys)
  end.

(** Attribute lookup on an object whose attribute may not have been assigned
    yet. *)
Definition getattr {A} (name : string) (field : option A) : Result A :=
  match field with
  | Some a => Ok a
  | None => Raise (AttributeError name)
  end.

(** Stateful computations that may raise: the state reached when the
    exception is raised is kept. *)
Definition M (St A : Type) : Type := St → Result A * St.

#[global] Instance M_ret {St} : MRet (M St) := fun A a st => (Ok a, st).
#[global] Instance M_bind {St} : MBind (M St) := fun A B f m st =>
  match m st with
  | (Ok a, st') => f a st'
  | (Raise e, st') => (Raise e, st')
  end.

Definition lift {St A} (r : Result A) : M St A := fun st => (r, st).
Definition raise {St A} (e : exn) : M St A := fun st => (Raise e, st).
Definition get {St} : M St St := fun st => (Ok st, st).
Definition modify {St} (f : St → St) : M St () := fun st => (Ok (), f st).

End Py.
Import Py.

(* ===================================================================== *)
(** ** NumPy: arrays of dimension at most two *)
(* ===================================================================== *)

(** The arithmetic of the array elements (numpy's float64). Nothing is assumed
    of it here; the few theorems that need a law of arithmetic state it as a
    hypothesis. [of_Z] reads an integer literal of the source. *)
Class Float (F : Type) := {
  of_Z : Z → F;
  fadd : F → F → F;
  fsub : F → F → F;
  fmul : F → F → F;
  fdiv : F → F → F;
  fmax : F → F → F;
}.

Module NumPy.
Section arrays.
Context {F : Type} `{!Float F}.

(** A 2-D array keeps its number of columns, so that an array with no row
    still has a shape, as in numpy. *)
Inductive ndarray :=
| Arr0 (x : F)
| Arr1 (v : list F)
| Arr2 (ncols : nat) (rows : list (list F)).

Definition shape (a : ndarray) : list nat :=
  match a with
  | Arr0 _ => []
  | Arr1 v => [length v]
  | Arr2 c rows => [length rows; c]
  end.

(** Every row of a 2-D array has [ncols] elements. *)
Definition wf (a : ndarray) : bool :=
  match a with
  | Arr2 c rows => forallb (λ r, Nat.eqb (length r) c) rows
  | _ => true
  end.

(** [a.shape[0]] and [a.shape[1]] *)
Definition shape0 (a : ndarray) : Result nat :=
  match shape a with
  | n :: _ => Ok n
  | [] => Raise IndexError
  end.

Definition shape1 (a : ndarray) : Result nat :=
  match shape a with
  | _ :: n :: _ => Ok n
  | _ => Raise IndexError
  end.

Definition at1 (v : list F) (i : nat) : F := default (of_Z 0) (v !! i).
Definition at2 (rows : list (list F)) (i j : nat) : F :=
  at1 (default [] (rows !! i)) j.

Definition column (rows : list (list F)) (j : nat) : list F :=
  (λ r, at1 r j) <$> rows.

(** [a.T] *)
Definition transpose (a : ndarray) : ndarray :=
  match a with
  | Arr2 c rows => Arr2 (length rows) (column rows <$> seq 0 c)
  | _ => a
  end.

(** Sum of a sequence, accumulated from zero, left to right. *)
Definition fsum (v : list F) : F := foldl fadd (of_Z 0) v.

Definition dot (u v : list F) : F := fsum (zip_with fmul u v).

Definition matmul_error (a b : ndarray) : exn :=
  ValueError (Msg_numpy "matmul" (shape a) (shape b)).

(** [a @ b] *)
Definition matmul (a b : ndarray) : Result ndarray :=
  match a, b with
  | Arr2 c1 r1, Arr2 c2 r2 =>
      if decide (c1 = length r2)
      then Ok (Arr2 c2 ((λ r, dot r <$> (column r2 <$> seq 0 c2)) <$> r1))
      else Raise (matmul_error a b)
  | Arr2 c1 r1, Arr1 v =>
      if decide (c1 = length v)
      then Ok (Arr1 ((λ r, dot r v) <$> r1))
      else Raise (matmul_error a b)
  | Arr1 u, Arr2 c2 r2 =>
      if decide (length u = length r2)
      then Ok (Arr1 (dot u <$> (column r2 <$> seq 0 c2)))
      else Raise (matmul_error a b)
  | Arr1 u, Arr1 v =>
      if decide (length u = length v)
      then Ok (Arr0 (dot u v))
      else Raise (matmul_error a b)
  | _, _ => Raise (matmul_error a b)
  end.

(** Broadcasting along one axis: equal lengths pair up, a length of one is
    stretched, anything else is a shape error. *)
Definition broadcast {A B C} (err : exn) (f : A → B → Result C)
    (u : list A) (v : list B) : Result (list C) :=
  if decide (length u = length v) then
    mapR (λ p, f p.1 p.2) (zip u v)
  else
    match u, v with
    | [x], _ => mapR (f x) v
    | _, [y] => mapR (λ x, f x y) u
    | _, _ => Raise err
    end.

Definition broadcast_dim (n m : nat) : option nat :=
  if decide (n = m) then Some n
  else if decide (n = 1) then Some m
  else if decide (m = 1) then Some n
  else None.

Definition broadcast_error (a b : ndarray) : exn :=
  ValueError (Msg_numpy "broadcast" (shape a) (shape b)).

(** An elementwise binary operator with numpy's broadcasting. *)
Definition elementwise (op : F → F → F) (a b : ndarray) : Result ndarray :=
  let err := broadcast_error a b in
  let op1 (u v : list F) := broadcast err (λ x y, Ok (op x y)) u v in
  match a, b with
  | Arr0 x, Arr0 y => Ok (Arr0 (op x y))
  | Arr0 x, Arr1 v => Ok (Arr1 (op x <$> v))
  | Arr0 x, Arr2 c rows => Ok (Arr2 c ((λ r : list F, op x <$> r) <$> rows))
  | Arr1 u, Arr0 y => Ok (Arr1 ((λ x, op x y) <$> u))
  | Arr2 c rows, Arr0 y => Ok (Arr2 c ((λ r : list F, (λ x, op x y) <$> r) <$> rows))
  | Arr1 u, Arr1 v => Arr1 <$> op1 u v
  | Arr2 c rows, Arr1 v =>
      match broadcast_dim c (length v) with
      | Some c' => Arr2 c' <$> mapR (λ r, op1 r v) rows
      | None => Raise err
      end
  | Arr1 u, Arr2 c rows =>
      match broadcast_dim (length u) c with
      | Some c' => Arr2 c' <$> mapR (λ r, op1 u r) rows
      | None => Raise err
      end
  | Arr2 c1 r1, Arr2 c2 r2 =>
      match broadcast_dim c1 c2 with
      | Some c' => Arr2 c' <$> broadcast err op1 r1 r2
      | None => Raise err
      end
  end.

Definition add := elementwise fadd.
Definition sub := elementwise fsub.
Definition mul := elementwise fmul.
Definition div := elementwise fdiv.

(** [a ** 2]: numpy squares the elements. *)
Definition square (a : ndarray) : ndarray :=
  match a with
  | Arr0 x => Arr0 (fmul x x)
  | Arr1 v => Arr1 ((λ x, fmul x x) <$> v)
  | Arr2 c rows => Arr2 c ((λ r : list F, (λ x, fmul x x) <$> r) <$> rows)
  end.

(** [np.sum(a)]: all the elements, down to a scalar. *)
Definition sum (a : ndarray) : F :=
  match a with
  | Arr0 x => x
  | Arr1 v => fsum v
  | Arr2 _ rows => fsum (concat rows)
  end.

Definition zeros (n : nat) : ndarray := Arr1 (replicate n (of_Z 0)).

(** Maximum of a non-empty sequence. *)
Definition fmaximum (x : F) (v : list F) : F := foldl fmax x v.

(** [np.ndarray.max(a, axis=0)]: a reduction without identity, refused on an
    axis of length zero. *)
Definition max_axis0 (a : ndarray) : Result ndarray :=
  let empty := ValueError (Msg_numpy "maximum" (shape a) []) in
  match a with
  | Arr0 _ => Raise (ValueError (Msg_numpy "axis" [] []))
  | Arr1 [] => Raise empty
  | Arr1 (x :: v) => Ok (Arr0 (fmaximum x v))
  | Arr2 c [] => Raise empty
  | Arr2 c (r :: rows) =>
      Ok (Arr1 ((λ j, fmaximum (at1 r j) (column rows j)) <$> seq 0 c))
  end.

(** [np.diag(a)]: a vector becomes a diagonal matrix, a matrix gives its
    diagonal. *)
Definition diag (a : ndarray) : Result ndarray :=
  match a with
  | Arr0 _ => Raise (ValueError (Msg_numpy "diag" [] []))
  | Arr1 v =>
      Ok (Arr2 (length v)
            (imap (λ i x, <[i := x]> (replicate (length v) (of_Z 0))) v))
  | Arr2 c rows =>
      Ok (Arr1 ((λ i, at2 rows i i) <$> seq 0 (length rows `min` c)))
  end.

(** [np.array([a1, ..., an])] for arrays of one common shape; a list of 2-D
    arrays would make a 3-D array, which the model does not represent. *)
Definition scalars (l : list ndarray) : option (list F) :=
  mapM (λ a, match a with Arr0 x => Some x | _ => None end) l.

Definition vectors (n : nat) (l : list ndarray) : option (list (list F)) :=
  mapM (λ a, match a with
             | Arr1 v => if decide (length v = n) then Some v else None
             | _ => None
             end) l.

Definition stack (l : list ndarray) : Result ndarray :=
  match l with
  | [] => Ok (Arr1 [])
  | Arr0 _ :: _ =>
      match scalars l with
      | Some v => Ok (Arr1 v)
      | None => Raise (ValueError (Msg_numpy "inhomogeneous" [] []))
      end
  | Arr1 v :: _ =>
      match vectors (length v) l with
      | Some rows => Ok (Arr2 (length v) rows)
      | None => Raise (ValueError (Msg_numpy "inhomogeneous" [length v] []))
      end
  | Arr2 _ _ :: _ => Raise (NotModelled "np.array of 2-D arrays")
  end.

(** [np.reshape(a, (a.shape[0], 1))] *)
Definition reshape_column (a : ndarray) : Result ndarray :=
  match a with
  | Arr0 _ => Raise IndexError
  | Arr1 v => Ok (Arr2 1 ((λ x, [x]) <$> v))
  | Arr2 c rows =>
      if decide (c = 1) then Ok a
      else Raise (ValueError (Msg_numpy "reshape" (shape a) [length rows; 1]))
  end.

(** A function applied to every element. *)
Definition pointwise (f : F → F) (a : ndarray) : ndarray :=
  match a with
  | Arr0 x => Arr0 (f x)
  | Arr1 v => Arr1 (f <$> v)
  | Arr2 c rows => Arr2 c ((λ r : list F, f <$> r) <$> rows)
  end.

(** [a.ravel()]: the elements in row-major order. *)
Definition ravel (a : ndarray) : list F :=
  match a with
  | Arr0 x => [x]
  | Arr1 v => v
  | Arr2 _ rows => concat rows
  end.

(** Arrays whose elements are all zero. *)
Definition all_zero (a : ndarray) : Prop :=
  Forall (λ x, x = of_Z 0) (ravel a).

End arrays.
Arguments ndarray F : clear implicits.
End NumPy.

(* ===================================================================== *)
(** ** The engine *)
(* ===================================================================== *)

(** The libraries the engine calls: scipy's integrator, numpy's pseudo-inverse
    and numpy's global random generator, whose state has type [G]. The
    integrator receives the right-hand side as a callback that may raise. *)
Class Libraries (F G : Type) := {
  odeint : (NumPy.ndarray F → F → Result (NumPy.ndarray F)) →
           NumPy.ndarray F → list F → Result (NumPy.ndarray F);
  pinv : NumPy.ndarray F → Result (NumPy.ndarray F);
  multivariate_normal :
    NumPy.ndarray F → NumPy.ndarray F → nat → G → Result (NumPy.ndarray F) * G;
}.

Module Engine.
Import NumPy.

(** Modelled from the spec: the inlet function [uin] built by the data
    container (datatools.py is not part of the sources at hand). It is a
    callable, vector-valued in time; whether the object also carries a [shape]
    attribute is left open. *)
Record Inlet {F : Type} := {
  inlet_at : F → list F;
  inlet_shape : option (list nat);
}.
Arguments Inlet F : clear implicits.

(** Modelled from the spec: what the engine consumes from the modules
    datatools.py and extents.py, which are not part of the sources at hand.
    - [Series] is a tabulated time series as the caller passes it, [Config] a
      reactor-configuration bundle;
    - [species_count] is the number S of species the container exposes for
      the stored N;
    - [add_reactor_config] resolves V, Winhat, uin and uout, given explicitly
      or derived from the bundle;
    - [interp_scalar] and [interp_vector] build the interpolated time
      functions (V and uout are scalar-valued, uin is vector-valued);
    - [compute_matrices] is the extent decomposition, a pure function of
      (N, Win, n0) returning the four matrices (q0T, S0T, M0T, Q0T). *)
Class Collaborators (F : Type) := {
  Series : Type;
  Config : Type;
  species_count : ndarray F → nat;
  add_reactor_config :
    Series → option (ndarray F) → option Series → option Series →
    option Config → Result (Series * ndarray F * Series * Series);
  interp_scalar : string → Series → Result (F → F);
  interp_vector : string → Series → Result (Inlet F);
  compute_matrices :
    ndarray F → ndarray F → ndarray F →
    Result (ndarray F * ndarray F * ndarray F * ndarray F);
}.

Section engine.
Context {F G : Type} `{!Float F, !Libraries F G, !Collaborators F}.

Abbreviation Inlet := (Engine.Inlet F).

(** The attributes of [self]; [None] is an attribute not assigned yet. *)
Record Simulate := {
  self_N : option (ndarray F);
  self_S : option (nat);
  self_Mw : option (ndarray F);
  self_V : option (F → F);
  self_Winhat : option (ndarray F);
  self_P : option (nat);
  self_uin : option (Inlet);
  self_uout : option (F → F);
  self_n0 : option (ndarray F);
  self_Win : option (ndarray F);
  self_m0 : option (F);
  self_ratelaws : option (list (ndarray F → Result (ndarray F)));
  self_time : option (list F);
  self__sol : option (ndarray F);
  self__reaction_rate : option (ndarray F);
  self__flow_rate : option (ndarray F);
  self__xr : option (ndarray F);
  self__xin : option (ndarray F);
  self__lamda : option (ndarray F);
}.

Definition unset : Simulate :=
  {| self_N := None; self_S := None; self_Mw := None; self_V := None;
     self_Winhat := None; self_P := None; self_uin := None; self_uout := None;
     self_n0 := None; self_Win := None; self_m0 := None;
     self_ratelaws := None; self_time := None; self__sol := None;
     self__reaction_rate := None; self__flow_rate := None; self__xr := None;
     self__xin := None; self__lamda := None |}.

(** Assignments [self.name = x]. *)
Definition set_N (x : ndarray F) (self : Simulate) : Simulate :=
  {| self_N := Some x; self_S := self_S self; self_Mw := self_Mw self;
     self_V := self_V self; self_Winhat := self_Winhat self;
     self_P := self_P self; self_uin := self_uin self;
     self_uout := self_uout self; self_n0 := self_n0 self;
     self_Win := self_Win self; self_m0 := self_m0 self;
     self_ratelaws := self_ratelaws self; self_time := self_time self;
     self__sol := self__sol self;
     self__reaction_rate := self__reaction_rate self;
     self__flow_rate := self__flow_rate self; self__xr := self__xr self;
     self__xin := self__xin self; self__lamda := self__lamda self |}.
Definition set_S (x : nat) (self : Simulate) : Simulate :=
  {| self_N := self_N self; self_S := Some x; self_Mw := self_Mw self;
     self_V := self_V self; self_Winhat := self_Winhat self;
     self_P := self_P self; self_uin := self_uin self;
     self_uout := self_uout self; self_n0 := self_n0 self;
     self_Win := self_Win self; self_m0 := self_m0 self;
     self_ratelaws := self_ratelaws self; self_time := self_time self;
     self__sol := self__sol self;
     self__reaction_rate := self__reaction_rate self;
     self__flow_rate := self__flow_rate self; self__xr := self__xr self;
     self__xin := self__xin self; self__lamda := self__lamda self |}.
Definition set_Mw (x : ndarray F) (self : Simulate) : Simulate :=
  {| self_N := self_N self; self_S := self_S self; self_Mw := Some x;
     self_V := self_V self; self_Winhat := self_Winhat self;
     self_P := self_P self; self_uin := self_uin self;
     self_uout := self_uout self; self_n0 := self_n0 self;
     self_Win := self_Win self; self_m0 := self_m0 self;
     self_ratelaws := self_ratelaws self; self_time := self_time self;
     self__sol := self__sol self;
     self__reaction_rate := self__reaction_rate self;
     self__flow_rate := self__flow_rate self; self__xr := self__xr self;
     self__xin := self__xin self; self__lamda := self__lamda self |}.
Definition set_V (x : F → F) (self : Simulate) : Simulate :=
  {| self_N := self_N self; self_S := self_S self; self_Mw := self_Mw self;
     self_V := Some x; self_Winhat := self_Winhat self; self_P := self_P self;
     self_uin := self_uin self; self_uout := self_uout self;
     self_n0 := self_n0 self; self_Win := self_Win self;
     self_m0 := self_m0 self; self_ratelaws := self_ratelaws self;
     self_time := self_time self; self__sol := self__sol self;
     self__reaction_rate := self__reaction_rate self;
     self__flow_rate := self__flow_rate self; self__xr := self__xr self;
     self__xin := self__xin self; self__lamda := self__lamda self |}.
Definition set_Winhat (x : ndarray F) (self : Simulate) : Simulate :=
  {| self_N := self_N self; self_S := self_S self; self_Mw := self_Mw self;
     self_V := self_V self; self_Winhat := Some x; self_P := self_P self;
     self_uin := self_uin self; self_uout := self_uout self;
     self_n0 := self_n0 self; self_Win := self_Win self;
     self_m0 := self_m0 self; self_ratelaws := self_ratelaws self;
     self_time := self_time self; self__sol := self__sol self;
     self__reaction_rate := self__reaction_rate self;
     self__flow_rate := self__flow_rate self; self__xr := self__xr self;
     self__xin := self__xin self; self__lamda := self__lamda self |}.
Definition set_P (x : nat) (self : Simulate) : Simulate :=
  {| self_N := self_N self; self_S := self_S self; self_Mw := self_Mw self;
     self_V := self_V self; self_Winhat := self_Winhat self; self_P := Some x;
     self_uin := self_uin self; self_uout := self_uout self;
     self_n0 := self_n0 self; self_Win := self_Win self;
     self_m0 := self_m0 self; self_ratelaws := self_ratelaws self;
     self_time := self_time self; self__sol := self__sol self;
     self__reaction_rate := self__reaction_rate self;
     self__flow_rate := self__flow_rate self; self__xr := self__xr self;
     self__xin := self__xin self; self__lamda := self__lamda self |}.
Definition set_uin (x : Inlet) (self : Simulate) : Simulate :=
  {| self_N := self_N self; self_S := self_S self; self_Mw := self_Mw self;
     self_V := self_V self; self_Winhat := self_Winhat self;
     self_P := self_P self; self_uin := Some x; self_uout := self_uout self;
     self_n0 := self_n0 self; self_Win := self_Win self;
     self_m0 := self_m0 self; self_ratelaws := self_ratelaws self;
     self_time := self_time self; self__sol := self__sol self;
     self__reaction_rate := self__reaction_rate self;
     self__flow_rate := self__flow_rate self; self__xr := self__xr self;
     self__xin := self__xin self; self__lamda := self__lamda self |}.
Definition set_uout (x : F → F) (self : Simulate) : Simulate :=
  {| self_N := self_N self; self_S := self_S self; self_Mw := self_Mw self;
     self_V := self_V self; self_Winhat := self_Winhat self;
     self_P := self_P self; self_uin := self_uin self; self_uout := Some x;
     self_n0 := self_n0 self; self_Win := self_Win self;
     self_m0 := self_m0 self; self_ratelaws := self_ratelaws self;
     self_time := self_time self; self__sol := self__sol self;
     self__reaction_rate := self__reaction_rate self;
     self__flow_rate := self__flow_rate self; self__xr := self__xr self;
     self__xin := self__xin self; self__lamda := self__lamda self |}.
Definition set_n0 (x : ndarray F) (self : Simulate) : Simulate :=
  {| self_N := self_N self; self_S := self_S self; self_Mw := self_Mw self;
     self_V := self_V self; self_Winhat := self_Winhat self;
     self_P := self_P self; self_uin := self_uin self;
     self_uout := self_uout self; self_n0 := Some x;
     self_Win := self_Win self; self_m0 := self_m0 self;
     self_ratelaws := self_ratelaws self; self_time := self_time self;
     self__sol := self__sol self;
     self__reaction_rate := self__reaction_rate self;
     self__flow_rate := self__flow_rate self; self__xr := self__xr self;
     self__xin := self__xin self; self__lamda := self__lamda self |}.
Definition set_Win (x : ndarray F) (self : Simulate) : Simulate :=
  {| self_N := self_N self; self_S := self_S self; self_Mw := self_Mw self;
     self_V := self_V self; self_Winhat := self_Winhat self;
     self_P := self_P self; self_uin := self_uin self;
     self_uout := self_uout self; self_n0 := self_n0 self; self_Win := Some x;
     self_m0 := self_m0 self; self_ratelaws := self_ratelaws self;
     self_time := self_time self; self__sol := self__sol self;
     self__reaction_rate := self__reaction_rate self;
     self__flow_rate := self__flow_rate self; self__xr := self__xr self;
     self__xin := self__xin self; self__lamda := self__lamda self |}.
Definition set_m0 (x : F) (self : Simulate) : Simulate :=
  {| self_N := self_N self; self_S := self_S self; self_Mw := self_Mw self;
     self_V := self_V self; self_Winhat := self_Winhat self;
     self_P := self_P self; self_uin := self_uin self;
     self_uout := self_uout self; self_n0 := self_n0 self;
     self_Win := self_Win self; self_m0 := Some x;
     self_ratelaws := self_ratelaws self; self_time := self_time self;
     self__sol := self__sol self;
     self__reaction_rate := self__reaction_rate self;
     self__flow_rate := self__flow_rate self; self__xr := self__xr self;
     self__xin := self__xin self; self__lamda := self__lamda self |}.
Definition set_ratelaws (x : list (ndarray F → Result (ndarray F)))
    (self : Simulate) : Simulate :=
  {| self_N := self_N self; self_S := self_S self; self_Mw := self_Mw self;
     self_V := self_V self; self_Winhat := self_Winhat self;
     self_P := self_P self; self_uin := self_uin self;
     self_uout := self_uout self; self_n0 := self_n0 self;
     self_Win := self_Win self; self_m0 := self_m0 self;
     self_ratelaws := Some x; self_time := self_time self;
     self__sol := self__sol self;
     self__reaction_rate := self__reaction_rate self;
     self__flow_rate := self__flow_rate self; self__xr := self__xr self;
     self__xin := self__xin self; self__lamda := self__lamda self |}.
Definition set_time (x : list F) (self : Simulate) : Simulate :=
  {| self_N := self_N self; self_S := self_S self; self_Mw := self_Mw self;
     self_V := self_V self; self_Winhat := self_Winhat self;
     self_P := self_P self; self_uin := self_uin self;
     self_uout := self_uout self; self_n0 := self_n0 self;
     self_Win := self_Win self; self_m0 := self_m0 self;
     self_ratelaws := self_ratelaws self; self_time := Some x;
     self__sol := self__sol self;
     self__reaction_rate := self__reaction_rate self;
     self__flow_rate := self__flow_rate self; self__xr := self__xr self;
     self__xin := self__xin self; self__lamda := self__lamda self |}.
Definition set__sol (x : ndarray F) (self : Simulate) : Simulate :=
  {| self_N := self_N self; self_S := self_S self; self_Mw := self_Mw self;
     self_V := self_V self; self_Winhat := self_Winhat self;
     self_P := self_P self; self_uin := self_uin self;
     self_uout := self_uout self; self_n0 := self_n0 self;
     self_Win := self_Win self; self_m0 := self_m0 self;
     self_ratelaws := self_ratelaws self; self_time := self_time self;
     self__sol := Some x; self__reaction_rate := self__reaction_rate self;
     self__flow_rate := self__flow_rate self; self__xr := self__xr self;
     self__xin := self__xin self; self__lamda := self__lamda self |}.
Definition set__reaction_rate (x : ndarray F) (self : Simulate) : Simulate :=
  {| self_N := self_N self; self_S := self_S self; self_Mw := self_Mw self;
     self_V := self_V self; self_Winhat := self_Winhat self;
     self_P := self_P self; self_uin := self_uin self;
     self_uout := self_uout self; self_n0 := self_n0 self;
     self_Win := self_Win self; self_m0 := self_m0 self;
     self_ratelaws := self_ratelaws self; self_time := self_time self;
     self__sol := self__sol self; self__reaction_rate := Some x;
     self__flow_rate := self__flow_rate self; self__xr := self__xr self;
     self__xin := self__xin self; self__lamda := self__lamda self |}.
Definition set__flow_rate (x : ndarray F) (self : Simulate) : Simulate :=
  {| self_N := self_N self; self_S := self_S self; self_Mw := self_Mw self;
     self_V := self_V self; self_Winhat := self_Winhat self;
     self_P := self_P self; self_uin := self_uin self;
     self_uout := self_uout self; self_n0 := self_n0 self;
     self_Win := self_Win self; self_m0 := self_m0 self;
     self_ratelaws := self_ratelaws self; self_time := self_time self;
     self__sol := self__sol self;
     self__reaction_rate := self__reaction_rate self;
     self__flow_rate := Some x; self__xr := self__xr self;
     self__xin := self__xin self; self__lamda := self__lamda self |}.
Definition set__xr (x : ndarray F) (self : Simulate) : Simulate :=
  {| self_N := self_N self; self_S := self_S self; self_Mw := self_Mw self;
     self_V := self_V self; self_Winhat := self_Winhat self;
     self_P := self_P self; self_uin := self_uin self;
     self_uout := self_uout self; self_n0 := self_n0 self;
     self_Win := self_Win self; self_m0 := self_m0 self;
     self_ratelaws := self_ratelaws self; self_time := self_time self;
     self__sol := self__sol self;
     self__reaction_rate := self__reaction_rate self;
     self__flow_rate := self__flow_rate self; self__xr := Some x;
     self__xin := self__xin self; self__lamda := self__lamda self |}.
Definition set__xin (x : ndarray F) (self : Simulate) : Simulate :=
  {| self_N := self_N self; self_S := self_S self; self_Mw := self_Mw self;
     self_V := self_V self; self_Winhat := self_Winhat self;
     self_P := self_P self; self_uin := self_uin self;
     self_uout := self_uout self; self_n0 := self_n0 self;
     self_Win := self_Win self; self_m0 := self_m0 self;
     self_ratelaws := self_ratelaws self; self_time := self_time self;
     self__sol := self__sol self;
     self__reaction_rate := self__reaction_rate self;
     self__flow_rate := self__flow_rate self; self__xr := self__xr self;
     self__xin := Some x; self__lamda := self__lamda self |}.
Definition set__lamda (x : ndarray F) (self : Simulate) : Simulate :=
  {| self_N := self_N self; self_S := self_S self; self_Mw := self_Mw self;
     self_V := self_V self; self_Winhat := self_Winhat self;
     self_P := self_P self; self_uin := self_uin self;
     self_uout := self_uout self; self_n0 := self_n0 self;
     self_Win := self_Win self; self_m0 := self_m0 self;
     self_ratelaws := self_ratelaws self; self_time := self_time self;
     self__sol := self__sol self;
     self__reaction_rate := self__reaction_rate self;
     self__flow_rate := self__flow_rate self; self__xr := self__xr self;
     self__xin := self__xin self; self__lamda := Some x |}.

(** [self.name], raising AttributeError when the attribute is not there. *)
Definition attr {A} (name : string) (proj : Simulate → option A)
  : M Simulate A :=
  λ self, (getattr name (proj self), self).

(** A comprehension whose body reads [self] and may raise. *)
Fixpoint mapM_self {A B} (f : A → M Simulate B) (l : list A)
  : M Simulate (list B) :=
  match l with
  | [] => mret []
  | x :: l' => y ← f x; ys ← mapM_self f l'; mret (y :: ys)
  end.

(** *** The data container (DataTools) *)

(** Modelled from the spec: the container stores N and exposes the species
    count S. *)
Definition add_stoichiometry_data (N : ndarray F) : M Simulate () :=
  modify (set_N N);; modify (set_S (species_count N)).

(** Modelled from the spec: the container stores Mw. *)
Definition add_molweight_data (Mw : ndarray F) : M Simulate () :=
  modify (set_Mw Mw).

(** Modelled from the spec: the container builds the interpolated volume
    function. *)
Definition add_volume_data (V : Series) (kind : string) : M Simulate () :=
  f ← lift (interp_scalar kind V); modify (set_V f).

(** Modelled from the spec: the number P of inlet streams of Winhat (S×P),
    its columns; a one-dimensional Winhat is a single stream. *)
Definition stream_count (Winhat : ndarray F) : nat :=
  match Winhat with
  | Arr2 c _ => c
  | _ => 1
  end.

(** Modelled from the spec: the container stores Winhat and exposes P. *)
Definition add_Winhat_data (Winhat : ndarray F) : M Simulate () :=
  modify (set_Winhat Winhat);; modify (set_P (stream_count Winhat)).

(** Modelled from the spec: the container builds the interpolated inlet and
    outlet functions. *)
Definition add_uin_data (uin : Series) (kind : string) : M Simulate () :=
  f ← lift (interp_vector kind uin); modify (set_uin f).

Definition add_uout_data (uout : Series) (kind : string) : M Simulate () :=
  f ← lift (interp_scalar kind uout); modify (set_uout f).

(** Modelled from the spec: the container stores the initial moles. *)
Definition add_n0_data (n0 : ndarray F) : M Simulate () :=
  modify (set_n0 n0).

(** *** Simulate.__init__ (simulate.py, lines 10-68) *)

(** The message of the uin check (lines 54-56). Its f-string reads
    [self.uin.shape] and [self.Win.shape] before the exception is built. *)
Definition uin_check_message : M Simulate message :=
  uin ← attr "uin" self_uin;
  uin_shape ← lift (getattr "shape" (inlet_shape uin));
  Win ← attr "Win" self_Win;
  mret (Msg_uin uin_shape (shape Win)).

Definition __init__ (N Mw : ndarray F) (V : Series)
    (Winhat : option (ndarray F)) (uin uout : option Series)
    (n0 : option (ndarray F)) (config : option Config) : M Simulate () :=
  match n0 with
  | None => raise (ValueError Msg_n0_none)
  | Some n0 =>
      add_stoichiometry_data N;;

      add_molweight_data Mw;;
      Mw' ← attr "Mw" self_Mw;
      rows ← lift (shape0 Mw');
      S ← attr "S" self_S;
      (if decide (rows ≠ S) then
         Mw' ← attr "Mw" self_Mw;
         S ← attr "S" self_S;
         N' ← attr "N" self_N;
         raise (ValueError (Msg_Mw (shape Mw') S (shape N')))
       else mret ());;

      '(V, Winhat, uin, uout) ←
        lift (add_reactor_config V Winhat uin uout config);
      add_volume_data V "linear";;

      add_Winhat_data Winhat;;
      Winhat' ← attr "Winhat" self_Winhat;
      rows ← lift (shape0 Winhat');
      S ← attr "S" self_S;
      (if decide (rows ≠ S) then
         Winhat' ← attr "Winhat" self_Winhat;
         S ← attr "S" self_S;
         P ← attr "P" self_P;
         N' ← attr "N" self_N;
         raise (ValueError (Msg_Winhat (shape Winhat') S P (shape N')))
       else mret ());;

      add_uin_data uin "linear";;
      uin' ← attr "uin" self_uin;
      P ← attr "P" self_P;
      (if decide (length (inlet_at uin' (of_Z 0)) ≠ P) then
         msg ← uin_check_message;
         raise (ValueError msg)
       else mret ());;

      add_uout_data uout "linear";;
      add_n0_data n0;;
      n0' ← attr "n0" self_n0;
      rows ← lift (shape0 n0');
      S ← attr "S" self_S;
      (if decide (rows ≠ S) then
         S ← attr "S" self_S;
         n0' ← attr "n0" self_n0;
         received ← lift (shape0 n0');
         raise (ValueError (Msg_n0 S received))
       else mret ());;

      Mw' ← attr "Mw" self_Mw;
      Mw_pinv ← lift (pinv Mw');
      Winhat' ← attr "Winhat" self_Winhat;
      Win ← lift (matmul Mw_pinv Winhat');
      modify (set_Win Win);;
      Win ← attr "Win" self_Win;
      (if decide (length (shape Win) = 1) then
         Win ← attr "Win" self_Win;
         Win' ← lift (reshape_column Win);
         modify (set_Win Win')
       else mret ());;
      Mw' ← attr "Mw" self_Mw;
      n0' ← attr "n0" self_n0;
      Mwn0 ← lift (matmul Mw' n0');
      modify (set_m0 (sum Mwn0))
  end.

(** [Simulate(N, Mw, V, ...)]: the object exists only if [__init__] returns. *)
Definition construct (N Mw : ndarray F) (V : Series)
    (Winhat : option (ndarray F)) (uin uout : option Series)
    (n0 : option (ndarray F)) (config : option Config) : Result Simulate :=
  match __init__ N Mw V Winhat uin uout n0 config unset with
  | (Ok _, self) => Ok self
  | (Raise e, _) => Raise e
  end.

(** *** Simulate.add_ratelaws (lines 70-84) *)

(** A rate-law definition: a RateLaw object, of which [function] is bound, or
    a bare callable; both take the concentration and the keyword [K]. *)
Inductive ratelaw_def :=
| RateLaw (function : ndarray F → ndarray F → Result (ndarray F))
| Callable (f : ndarray F → ndarray F → Result (ndarray F)).

(** [partial(f, K=k)] *)
Definition partial (f : ndarray F → ndarray F → Result (ndarray F))
    (k : ndarray F) : ndarray F → Result (ndarray F) :=
  λ c, f c k.

(** [K[idx]] *)
Definition item (K : list (ndarray F)) (idx : nat) : Result (ndarray F) :=
  match K !! idx with
  | Some k => Ok k
  | None => Raise IndexError
  end.

Definition add_ratelaws (ratelaws : list ratelaw_def) (K : list (ndarray F))
  : M Simulate () :=
  bound ← lift (mapR (λ p : nat * ratelaw_def,
                        match p.2 with
                        | RateLaw function => partial function <$> item K p.1
                        | Callable f => partial f <$> item K p.1
                        end)
                     (imap pair ratelaws));
  modify (set_ratelaws bound).

(** *** Simulate.mole_balance (lines 86-106) *)

Definition mole_balance (self : Simulate) (y : ndarray F) (t : F)
  : Result (ndarray F) :=
  V ← getattr "V" (self_V self);
  c ← div y (Arr0 (V t));
  ratelaws ← getattr "ratelaws" (self_ratelaws self);
  rates ← mapR (λ ratelaw, ratelaw c) ratelaws;
  rate ← stack rates;
  Mw ← getattr "Mw" (self_Mw self);
  Mwy ← matmul Mw y;
  let m := sum Mwy in
  N ← getattr "N" (self_N self);
  NTr ← matmul (transpose N) rate;
  V ← getattr "V" (self_V self);
  reaction ← mul NTr (Arr0 (V t));
  Win ← getattr "Win" (self_Win self);
  uin ← getattr "uin" (self_uin self);
  inlet ← matmul Win (Arr1 (inlet_at uin t));
  balance ← add reaction inlet;
  uout ← getattr "uout" (self_uout self);
  uy ← mul (Arr0 (uout t)) y;
  outlet ← div uy (Arr0 m);
  sub balance outlet.

(** *** Simulate.run_simulation (lines 108-159) *)

(** What a run can change: the object and numpy's global random generator.
    [draws] records the calls made to the sampler, oldest first, with their
    arguments (mean, cov, size). *)
Record World := {
  obj : Simulate;
  rng : G;
  draws : list (ndarray F * ndarray F * nat);
}.

Definition on_self {A} (m : M Simulate A) : M World A :=
  λ w, let '(r, self) := m (obj w) in
       (r, {| obj := self; rng := rng w; draws := draws w |}).

(** [np.random.multivariate_normal(mean=..., cov=..., size=...)] *)
Definition np_random_multivariate_normal (mean cov : ndarray F) (size : nat)
  : M World (ndarray F) :=
  λ w, let '(r, g) := multivariate_normal mean cov size (rng w) in
       (r, {| obj := obj w; rng := g;
              draws := draws w ++ [(mean, cov, size)] |}).

(** [self.V(time)]: the interpolant applied to every time point. *)
Definition V_of (V : F → F) (time : list F) : ndarray F := Arr1 (V <$> time).

Definition run_simulation (time : list F) (alpha : F)
  : M World (gmap string (ndarray F)) :=
  on_self (modify (set_time time));;
  self ← on_self get;
  n0 ← on_self (attr "n0" self_n0);
  sol ← lift (odeint (mole_balance self) n0 time);

  nSamples ← lift (shape0 sol);
  nSpecies ← lift (shape1 sol);
  let noise_mean := zeros nSpecies in
  peak ← lift (max_axis0 sol);
  peaks ← lift (diag peak);
  noise_std ← lift (mul (Arr0 (fdiv alpha (of_Z 100))) peaks);
  let noise_cov := square noise_std in
  noise ← np_random_multivariate_normal noise_mean noise_cov nSamples;

  noisy ← lift (add sol noise);
  on_self (modify (set__sol noisy));;

  ratelaws ← on_self (attr "ratelaws" self_ratelaws);
  rates ← on_self (mapM_self (λ ratelaw,
             _sol ← attr "_sol" self__sol;
             V ← attr "V" self_V;
             c ← lift (div (transpose _sol) (V_of V time));
             lift (ratelaw c)) ratelaws);
  reaction_rate ← lift (stack rates);
  on_self (modify (set__reaction_rate reaction_rate));;

  N ← on_self (attr "N" self_N);
  rr ← on_self (attr "_reaction_rate" self__reaction_rate);
  NTr ← lift (matmul (transpose N) rr);
  V ← on_self (attr "V" self_V);
  flow ← lift (mul NTr (V_of V time));
  on_self (modify (set__flow_rate (transpose flow)));;

  rr ← on_self (attr "_reaction_rate" self__reaction_rate);
  on_self (modify (set__reaction_rate (transpose rr)));;

  N ← on_self (attr "N" self_N);
  Win ← on_self (attr "Win" self_Win);
  n0 ← on_self (attr "n0" self_n0);
  '(q0T, S0T, M0T, Q0T) ← lift (compute_matrices N Win n0);

  _sol ← on_self (attr "_sol" self__sol);
  xr ← lift (matmul _sol (transpose S0T));
  on_self (modify (set__xr xr));;

  _sol ← on_self (attr "_sol" self__sol);
  xin ← lift (matmul _sol (transpose M0T));
  on_self (modify (set__xin xin));;

  _sol ← on_self (attr "_sol" self__sol);
  lamda ← lift (matmul _sol (transpose q0T));
  on_self (modify (set__lamda lamda));;

  moles ← on_self (attr "_sol" self__sol);
  reaction_rate ← on_self (attr "_reaction_rate" self__reaction_rate);
  flow_rate ← on_self (attr "_flow_rate" self__flow_rate);
  xr ← on_self (attr "_xr" self__xr);
  xin ← on_self (attr "_xin" self__xin);
  lamda ← on_self (attr "_lamda" self__lamda);
  xout ← lift (sub (Arr0 (of_Z 1)) lamda);
  mret (<["moles" := moles]> (<["reaction_rate" := reaction_rate]>
       (<["flow_rate" := flow_rate]> (<["xr" := xr]> (<["xin" := xin]>
       (<["xout" := xout]> ∅)))))).

End engine.
Arguments Simulate F : clear implicits.
Arguments World F G : clear implicits.
End Engine.

Import NumPy Engine.

(* ===================================================================== *)
(** ** The vocabulary of the properties *)
(* ===================================================================== *)

Module Spec.
Section spec.
Context {F G : Type} `{!Float F, !Libraries F G, !Collaborators F}.

(** The right-hand side as the specification writes it, species by species:
    [dy/dt = Nᵗ·r·V(t) + Win·uin(t) − uout(t)·y/m] with [m = sum(Mw @ y)].
    Row [j] of [N] is reaction [j]; species [i] reads column [i] of [N] and
    row [i] of [Win]. *)
Definition total_mass (Mw : list (list F)) (y : list F) : F :=
  fsum ((λ row, dot row y) <$> Mw).

Definition reaction_term (N : list (list F)) (r : list F) (Vt : F) (i : nat)
  : F :=
  fmul (dot (column N i) r) Vt.

Definition inlet_term (Win : list (list F)) (uin_t : list F) (i : nat) : F :=
  dot (default [] (Win !! i)) uin_t.

Definition outlet_term (uout_t : F) (y : list F) (m : F) (i : nat) : F :=
  fdiv (fmul uout_t (at1 y i)) m.

Definition dydt (N Win Mw : list (list F)) (r : list F) (Vt : F)
    (uin_t : list F) (uout_t : F) (y : list F) (i : nat) : F :=
  fsub (fadd (reaction_term N r Vt i) (inlet_term Win uin_t i))
       (outlet_term uout_t y (total_mass Mw y) i).

(** An engine with its inputs set and its rate laws bound, at a state [y] of
    length [S] and a time [t]; [rs] are the values of the rate laws at the
    concentration [y / V(t)]. *)
Record balanced (self : Simulate F) (y : list F) (t : F)
    (S P : nat) (N Win Mw : list (list F)) (Vf uoutf : F → F)
    (uinf : Inlet F) (rs : list F) : Prop := {
  bal_V : self_V self = Some Vf;
  bal_Mw : self_Mw self = Some (Arr2 S Mw);
  bal_N : self_N self = Some (Arr2 S N);
  bal_Win : self_Win self = Some (Arr2 P Win);
  bal_uin : self_uin self = Some uinf;
  bal_uout : self_uout self = Some uoutf;
  bal_y : length y = S;
  bal_Win_rows : length Win = S;
  bal_uin_len : length (inlet_at uinf t) = P;
  bal_N_rows : length N = length rs;
  bal_rates :
    ∃ ratelaws, self_ratelaws self = Some ratelaws ∧
      Forall2 (λ ratelaw r,
                 ratelaw (Arr1 ((λ x, fdiv x (Vf t)) <$> y)) = Ok (Arr0 r))
              ratelaws rs;
}.

(** The rate-law comprehension of line 135 only reads [self]: with the noisy
    trajectory stored and [V] set, it is the pure evaluation of every rate
    law at the concentration [_sol.T / V(time)]. *)
Definition rates_at (ratelaws : list (ndarray F → Result (ndarray F)))
    (Vf : F → F) (time : list F) (traj : ndarray F)
  : Result (list (ndarray F)) :=
  mapR (λ ratelaw, c ← div (transpose traj) (V_of Vf time); ratelaw c)
       ratelaws.

(** The values a run that returns goes through, in the order of the
    source. *)
Record Trace := {
  t_n0 : ndarray F;
  t_sol : ndarray F;
  t_nSamples : nat;
  t_nSpecies : nat;
  t_peak : ndarray F;
  t_peaks : ndarray F;
  t_noise_std : ndarray F;
  t_noise : ndarray F;
  t_rng : G;
  t_noisy : ndarray F;
  t_ratelaws : list (ndarray F → Result (ndarray F));
  t_V : F → F;
  t_rates : list (ndarray F);
  t_reaction_rate : ndarray F;
  t_N : ndarray F;
  t_NTr : ndarray F;
  t_flow : ndarray F;
  t_Win : ndarray F;
  t_q0T : ndarray F;
  t_S0T : ndarray F;
  t_M0T : ndarray F;
  t_Q0T : ndarray F;
  t_xr : ndarray F;
  t_xin : ndarray F;
  t_lamda : ndarray F;
  t_xout : ndarray F;
}.

(** The object after a run that returned. *)
Definition after_run (time : list F) (tr : Trace) (o : Simulate F)
  : Simulate F :=
  set__lamda (t_lamda tr) (set__xin (t_xin tr) (set__xr (t_xr tr)
    (set__reaction_rate (transpose (t_reaction_rate tr))
      (set__flow_rate (transpose (t_flow tr))
        (set__reaction_rate (t_reaction_rate tr)
          (set__sol (t_noisy tr) (set_time time o))))))).

(** The results mapping of a run that returned. *)
Definition results (tr : Trace) : gmap string (ndarray F) :=
  <["moles" := t_noisy tr]>
  (<["reaction_rate" := transpose (t_reaction_rate tr)]>
  (<["flow_rate" := transpose (t_flow tr)]> (<["xr" := t_xr tr]>
  (<["xin" := t_xin tr]> (<["xout" := t_xout tr]> ∅))))).

Record returns (time : list F) (alpha : F) (o : Simulate F) (g : G)
    (tr : Trace) : Prop := {
  r_n0 : self_n0 o = Some (t_n0 tr);
  r_sol : odeint (mole_balance (set_time time o)) (t_n0 tr) time
          = Ok (t_sol tr);
  r_nSamples : shape0 (t_sol tr) = Ok (t_nSamples tr);
  r_nSpecies : shape1 (t_sol tr) = Ok (t_nSpecies tr);
  r_peak : max_axis0 (t_sol tr) = Ok (t_peak tr);
  r_peaks : diag (t_peak tr) = Ok (t_peaks tr);
  r_noise_std : mul (Arr0 (fdiv alpha (of_Z 100))) (t_peaks tr)
                = Ok (t_noise_std tr);
  r_noise : multivariate_normal (zeros (t_nSpecies tr))
              (square (t_noise_std tr)) (t_nSamples tr) g
            = (Ok (t_noise tr), t_rng tr);
  r_noisy : add (t_sol tr) (t_noise tr) = Ok (t_noisy tr);
  r_ratelaws : self_ratelaws o = Some (t_ratelaws tr);
  r_V : self_V o = Some (t_V tr);
  r_rates : rates_at (t_ratelaws tr) (t_V tr) time (t_noisy tr)
            = Ok (t_rates tr);
  r_reaction_rate : stack (t_rates tr) = Ok (t_reaction_rate tr);
  r_N : self_N o = Some (t_N tr);
  r_NTr : matmul (transpose (t_N tr)) (t_reaction_rate tr) = Ok (t_NTr tr);
  r_flow : mul (t_NTr tr) (V_of (t_V tr) time) = Ok (t_flow tr);
  r_Win : self_Win o = Some (t_Win tr);
  r_matrices : compute_matrices (t_N tr) (t_Win tr) (t_n0 tr)
               = Ok (t_q0T tr, t_S0T tr, t_M0T tr, t_Q0T tr);
  r_xr : matmul (t_noisy tr) (transpose (t_S0T tr)) = Ok (t_xr tr);
  r_xin : matmul (t_noisy tr) (transpose (t_M0T tr)) = Ok (t_xin tr);
  r_lamda : matmul (t_noisy tr) (transpose (t_q0T tr)) = Ok (t_lamda tr);
  r_xout : sub (Arr0 (of_Z 1)) (t_lamda tr) = Ok (t_xout tr);
}.

(** Statements that leave numpy's random generator alone. *)
Definition keeps_rng {A} (m : M (World F G) A) : Prop :=
  ∀ w, rng (m w).2 = rng w ∧ draws (m w).2 = draws w.

(** The covariance a run hands to the sampler (lines 126-127). *)
Definition noise_covariance (alpha : F) (sol : ndarray F)
  : Result (ndarray F) :=
  peak ← max_axis0 sol;
  peaks ← diag peak;
  noise_std ← mul (Arr0 (fdiv alpha (of_Z 100))) peaks;
  Ok (square noise_std).

(** The inputs of a run: the attributes [run_simulation] and [mole_balance]
    read without having written them. *)
Definition same_inputs (a b : Simulate F) : Prop :=
  self_N a = self_N b ∧ self_Mw a = self_Mw b ∧ self_V a = self_V b ∧
  self_uin a = self_uin b ∧ self_uout a = self_uout b ∧
  self_n0 a = self_n0 b ∧ self_Win a = self_Win b ∧
  self_ratelaws a = self_ratelaws b.

(** What the determinism of a run at [alpha = 0] rests on: three laws of
    arithmetic (they hold of the reals, and of the floating-point numbers on
    finite values), a sampler that returns the mean when the covariance is
    zero, and an integrator that returns a proper array. *)
Record noise_free : Prop := {
  zero_div : fdiv (of_Z 0) (of_Z 100) = of_Z 0;
  zero_mul : ∀ x, fmul (of_Z 0) x = of_Z 0;
  zero_add : ∀ x, fadd x (of_Z 0) = x;
  degenerate : ∀ mean rows size (g : G),
    length rows = length mean →
    all_zero (Arr2 (length mean) rows) →
    (multivariate_normal (Arr1 mean) (Arr2 (length mean) rows) size g).1
    = Ok (Arr2 (length mean) (replicate size mean));
  odeint_wf : ∀ f y0 t sol, odeint f y0 t = Ok sol → wf sol = true;
}.

(** The same trace, with another state of the random generator left behind. *)
Definition with_rng (g : G) (tr : Trace) : Trace :=
  {| t_n0 := t_n0 tr; t_sol := t_sol tr; t_nSamples := t_nSamples tr;
     t_nSpecies := t_nSpecies tr; t_peak := t_peak tr; t_peaks := t_peaks tr;
     t_noise_std := t_noise_std tr; t_noise := t_noise tr; t_rng := g;
     t_noisy := t_noisy tr; t_ratelaws := t_ratelaws tr; t_V := t_V tr;
     t_rates := t_rates tr; t_reaction_rate := t_reaction_rate tr;
     t_N := t_N tr; t_NTr := t_NTr tr; t_flow := t_flow tr; t_Win := t_Win tr;
     t_q0T := t_q0T tr; t_S0T := t_S0T tr; t_M0T := t_M0T tr;
     t_Q0T := t_Q0T tr; t_xr := t_xr tr; t_xin := t_xin tr;
     t_lamda := t_lamda tr; t_xout := t_xout tr |}.

End spec.
Arguments Trace F G : clear implicits.
Arguments noise_free F G {_ _}.
End Spec.
Import Spec.

(* ===================================================================== *)
(** ** An instance over exact rationals *)
(* ===================================================================== *)

(** The properties of part II hold for every arithmetic, integrator, sampler
    and data container. This instance exercises them: rationals for the numbers,
    the explicit Euler scheme for the integrator, a sampler that shifts the
    mean by the variance times a value drawn from the generator state (a
    counter), and a data container that keeps what it is given and
    interpolates linearly. *)
Module Exact.

#[export] Instance Qc_Float : Float Qc := {
  of_Z z := Q2Qc (inject_Z z);
  fadd := Qcplus;
  fsub := Qcminus;
  fmul := Qcmult;
  fdiv := Qcdiv;
  fmax x y := match Qccompare x y with Lt => y | _ => x end;
}.

(** Explicit Euler: [y' = y + (t' - t) f(y, t)] over the time grid. *)
Fixpoint euler (f : ndarray Qc → Qc → Result (ndarray Qc))
    (y : list Qc) (t : Qc) (grid : list Qc) : Result (list (list Qc)) :=
  match grid with
  | [] => Ok []
  | t' :: grid' =>
      dy ← f (Arr1 y) t;
      match dy with
      | Arr1 d =>
          if decide (length d = length y) then
            let y' := zip_with (λ yi di, Qcplus yi (Qcmult (Qcminus t' t) di))
                               y d in
            rest ← euler f y' t' grid';
            Ok (y' :: rest)
          else Raise (Foreign "odeint: size of the derivative")
      | _ => Raise (Foreign "odeint: dimension of the derivative")
      end
  end.

Definition euler_odeint (f : ndarray Qc → Qc → Result (ndarray Qc))
    (y0 : ndarray Qc) (time : list Qc) : Result (ndarray Qc) :=
  match y0, time with
  | Arr1 y, t0 :: grid =>
      rest ← euler f y t0 grid; Ok (Arr2 (length y) (y :: rest))
  | _, _ => Raise (Foreign "odeint: arguments")
  end.

(** The transpose with every entry inverted (and zero left as zero): the
    pseudo-inverse of a matrix with at most one non-zero entry in every row
    and column, diagonal matrices among them. *)
Definition diagonal_pinv (a : ndarray Qc) : Result (ndarray Qc) :=
  match a with
  | Arr2 c rows =>
      Ok (Arr2 (length rows)
            ((λ j, (λ r, Qcinv (at1 r j)) <$> rows) <$> seq 0 c))
  | _ => Raise LinAlgError
  end.

(** A value in [-3/10, 3/10] read off the generator state. *)
Definition jitter (g : nat) : Qc :=
  Q2Qc (Qmake (Z.of_nat (g mod 7) - 3) 10).

(** One draw per sample: component [i] is [mean i + cov i i * jitter]; the
    generator state advances by the number of samples. *)
Definition shift_sampler (mean cov : ndarray Qc) (size : nat) (g : nat)
  : Result (ndarray Qc) * nat :=
  match mean, cov with
  | Arr1 m, Arr2 c rows =>
      if decide (c = length m ∧ length rows = length m) then
        (Ok (Arr2 (length m)
               ((λ k, imap (λ i mi, Qcplus mi
                                      (Qcmult (at2 rows i i) (jitter (g + k))))
                           m) <$> seq 0 size)),
         g + size)
      else (Raise (Foreign "multivariate_normal: shapes"), g)
  | _, _ => (Raise (Foreign "multivariate_normal: dimensions"), g)
  end.

#[export] Instance Exact_Libraries : Libraries Qc nat := {
  odeint := euler_odeint;
  pinv := diagonal_pinv;
  multivariate_normal := shift_sampler;
}.

(** Linear interpolation through the samples [(t, v)], the first segment
    extended to the left and the last value held to the right. *)
Fixpoint interpolate (samples : list (Qc * Qc)) (t : Qc) : Qc :=
  match samples with
  | [] => Q2Qc 0
  | (t0, v0) :: rest =>
      match rest with
      | [] => v0
      | (t1, v1) :: _ =>
          match Qccompare t t1 with
          | Gt => interpolate rest t
          | _ => Qcplus v0 (Qcdiv (Qcmult (Qcminus t t0) (Qcminus v1 v0))
                                  (Qcminus t1 t0))
          end
      end
  end.

(** A tabulated series: the time and the values at that time. *)
Definition Samples : Type := list (Qc * list Qc).

Definition component (j : nat) (s : Samples) : list (Qc * Qc) :=
  (λ p, (p.1, at1 p.2 j)) <$> s.

Definition width (s : Samples) : nat :=
  match s with
  | [] => 0
  | p :: _ => length p.2
  end.

Definition linear_scalar (kind : string) (s : Samples) : Result (Qc → Qc) :=
  match s with
  | [] => Raise (Foreign "interpolation: no sample")
  | _ => Ok (interpolate (component 0 s))
  end.

Definition linear_vector (kind : string) (s : Samples)
  : Result (Inlet Qc) :=
  match s with
  | [] => Raise (Foreign "interpolation: no sample")
  | _ => Ok {| inlet_at t := (λ j, interpolate (component j s) t) <$>
                               seq 0 (width s);
               inlet_shape := None |}
  end.

(** A configuration bundle supplies what is not given explicitly. *)
Record Bundle := {
  bundle_Winhat : ndarray Qc;
  bundle_uin : Samples;
  bundle_uout : Samples;
}.

Definition resolve {A} (explicit : option A) (config : option Bundle)
    (field : Bundle → A) : Result A :=
  match explicit, config with
  | Some x, _ => Ok x
  | None, Some b => Ok (field b)
  | None, None => Raise (Foreign "reactor configuration")
  end.

Definition exact_reactor_config (V : Samples) (Winhat : option (ndarray Qc))
    (uin uout : option Samples) (config : option Bundle)
  : Result (Samples * ndarray Qc * Samples * Samples) :=
  W ← resolve Winhat config bundle_Winhat;
  u ← resolve uin config bundle_uin;
  o ← resolve uout config bundle_uout;
  Ok (V, W, u, o).

(** The species index the columns of N, as [N.T @ rate] in [mole_balance]
    needs. *)
Definition columns (N : ndarray Qc) : nat :=
  match N with
  | Arr2 c _ => c
  | Arr1 v => length v
  | Arr0 _ => 0
  end.

(** A stand-in for the extent decomposition, of the right shapes: the
    statements proved here do not depend on what the four matrices hold. *)
Definition stand_in_matrices (N Win n0 : ndarray Qc)
  : Result (ndarray Qc * ndarray Qc * ndarray Qc * ndarray Qc) :=
  match n0 with
  | Arr1 v =>
      Ok (Arr2 (length v) [Qcinv <$> v], N, transpose Win,
          Arr2 (length v) [])
  | _ => Raise (Foreign "compute_matrices")
  end.

#[export] Instance Exact_Collaborators : Collaborators Qc := {
  Series := Samples;
  Config := Bundle;
  species_count := columns;
  add_reactor_config := exact_reactor_config;
  interp_scalar := linear_scalar;
  interp_vector := linear_vector;
  compute_matrices := stand_in_matrices;
}.

End Exact.

(* ===================================================================== *)
(** ** A reactor to run *)
(* ===================================================================== *)

(** One species decaying by one first-order reaction, no flow:
    [N = [[-1]]], [Mw = [[1]]], [V = 1], [Winhat = [0]] (one stream, given as
    a vector), [uin = uout = 0], [n0 = [1]], rate constant 1/2, over the time
    grid [0, 1, 2]. *)
Module Decay.
Import Exact.

Definition q (z : Z) : Qc := Q2Qc (inject_Z z).
Definition half : Qc := Q2Qc (Qmake 1 2).

Definition N : ndarray Qc := Arr2 1 [[q (-1)]].
Definition Mw : ndarray Qc := Arr2 1 [[q 1]].
Definition V : Series := [(q 0, [q 1]); (q 2, [q 1])].
Definition Winhat : ndarray Qc := Arr1 [q 0].
Definition uin : Series := [(q 0, [q 0]); (q 2, [q 0])].
Definition uout : Series := [(q 0, [q 0]); (q 2, [q 0])].
Definition n0 : ndarray Qc := Arr1 [q 1].
Definition time : list Qc := [q 0; q 1; q 2].

(** An inlet series with two streams, where Winhat has one. *)
Definition uin_two_streams : Series :=
  [(q 0, [q 0; q 0]); (q 2, [q 0; q 0])].

(** Initial moles for two species, where N has one. *)
Definition n0_two_species : ndarray Qc := Arr1 [q 1; q 1].

(** The first-order rate law [K * c[0]], on a concentration vector and on a
    concentration trajectory (species by time steps). *)
Definition first_order (c K : ndarray Qc) : Result (ndarray Qc) :=
  match K, c with
  | Arr0 k, Arr1 v => Ok (Arr0 (Qcmult k (at1 v 0)))
  | Arr0 k, Arr2 _ rows => Ok (Arr1 (Qcmult k <$> default [] (rows !! 0)))
  | _, _ => Raise (Foreign "first_order")
  end.

(** The engine: constructed, then its rate law bound. *)
Definition engine : Result (Simulate Qc) :=
  match construct (G := nat) N Mw V (Some Winhat) (Some uin) (Some uout)
          (Some n0) None with
  | Ok self =>
      match add_ratelaws [Callable first_order] [Arr0 half] self with
      | (Ok _, self') => Ok self'
      | (Raise e, _) => Raise e
      end
  | Raise e => Raise e
  end.

(** The engine, ready to run, and the state of the world before a run. *)
Definition reactor : Simulate Qc :=
  match engine with
  | Ok self => self
  | Raise _ => unset
  end.

Definition world : World Qc nat :=
  {| obj := reactor; rng := 0; draws := [] |}.

(** The rows of the integrated trajectory after the initial state. *)
Definition later_rows : list (list Qc) :=
  match odeint (mole_balance (set_time time reactor)) n0 time with
  | Ok (Arr2 _ (_ :: rows)) => rows
  | _ => []
  end.

End Decay.

(* ===================================================================== *)
(** * Part II: proofs *)
(* ===================================================================== *)

(* ===================================================================== *)
(** ** Facts about the monads *)
(* ===================================================================== *)

Section monad_facts.

(** Stepping through a computation, one statement at a time. *)
Lemma bind_ok {St A B} (m : M St A) (f : A → M St B) st a st1 r :
  m st = (Ok a, st1) → f a st1 = r → (m ≫= f) st = r.
Proof. intros Hm Hf. unfold mbind, M_bind. by rewrite Hm. Qed.

Lemma bind_raise {St A B} (m : M St A) (f : A → M St B) st e st1 :
  m st = (Raise e, st1) → (m ≫= f) st = (Raise e, st1).
Proof. intros Hm. unfold mbind, M_bind. by rewrite Hm. Qed.

Lemma bind_inv {St A B} (m : M St A) (f : A → M St B) st b st2 :
  (m ≫= f) st = (Ok b, st2) →
  ∃ a st1, m st = (Ok a, st1) ∧ f a st1 = (Ok b, st2).
Proof.
  unfold mbind, M_bind. destruct (m st) as [[a|e] st1]; [eauto|done].
Qed.

Lemma lift_eq {St A} (r v : Result A) (st : St) :
  r = v → lift r st = (v, st).
Proof. by intros ->. Qed.

Lemma if_true {St A} (P : Prop) `{!Decision P} (a b : M St A) st r :
  P → a st = r → (if decide P then a else b) st = r.
Proof. intros HP <-. by rewrite decide_True. Qed.

Lemma if_false {St A} (P : Prop) `{!Decision P} (a b : M St A) st r :
  ¬ P → b st = r → (if decide P then a else b) st = r.
Proof. intros HP <-. by rewrite decide_False. Qed.

Lemma mapR_length {A B} (f : A → Result B) l ys :
  mapR f l = Ok ys → length ys = length l.
Proof.
  revert ys. induction l as [|x l IH]; intros ys; simpl.
  - by intros [= <-].
  - destruct (f x) as [y|]; simpl; [|done].
    destruct (mapR f l) as [ys'|]; simpl; [|done].
    intros [= <-]. simpl. f_equal. by apply IH.
Qed.

End monad_facts.

(* ===================================================================== *)
(** ** Running the monads symbolically *)
(* ===================================================================== *)

(** One statement that returns: the premise is closed by [tac]. *)
Ltac step_with tac :=
  eapply bind_ok; [solve [tac] | cbv beta iota].

(** Attribute reads, assignments and returns compute. *)
Ltac step := step_with ltac:(reflexivity).

(** A library or collaborator call whose result is a hypothesis. *)
Ltac call H := step_with ltac:(apply lift_eq; exact H).

(** An [if] whose test is false, with an empty [else]. *)
Ltac skip_if :=
  step_with ltac:(eapply if_false;
                  [first [congruence | tauto | lia] | reflexivity]).

(** An [if] whose test is true: continue in its body. *)
Ltac enter_if :=
  eapply bind_raise; eapply if_true; [first [congruence | tauto | lia] |].

(* ===================================================================== *)
(** ** Facts about the array operations *)
(* ===================================================================== *)

Section array_facts.
Context {F : Type} `{!Float F}.
Implicit Types (u v : list F) (rows : list (list F)).

(** A scalar on the left is combined with every element, whatever the shape
    of the array on the right. *)
Lemma elementwise_scalar_l (op : F → F → F) (x : F) (a : ndarray F) :
  elementwise op (Arr0 x) a = Ok (pointwise (op x) a).
Proof. by destruct a. Qed.

Lemma wf_rows c (rows : list (list F)) :
  (∀ r, r ∈ rows → length r = c) → wf (Arr2 c rows) = true.
Proof.
  intros H. apply forallb_forall. intros r Hr.
  apply Nat.eqb_eq, H. by apply list_elem_of_In.
Qed.

Lemma concat_singletons (v : list F) : concat ((λ x, [x]) <$> v) = v.
Proof. induction v as [|x v IH]; [done|]. simpl. f_equal. exact IH. Qed.

Lemma at1_lookup v i x : v !! i = Some x → at1 v i = x.
Proof. unfold at1. by intros ->. Qed.

Lemma mapR_zip (op : F → F → F) u v :
  mapR (λ p : F * F, Ok (op p.1 p.2)) (zip u v) = Ok (zip_with op u v).
Proof.
  revert v. induction u as [|x u IH]; intros [|y v]; simpl; try done.
  by rewrite IH.
Qed.

(** Operands of one length are combined element by element. *)
Lemma broadcast_same err (op : F → F → F) u v :
  length u = length v →
  broadcast err (λ x y, Ok (op x y)) u v = Ok (zip_with op u v).
Proof.
  intros Hlen. unfold broadcast. rewrite decide_True by done.
  apply mapR_zip.
Qed.

Lemma scalars_Arr0 (rs : list F) : scalars (Arr0 <$> rs) = Some rs.
Proof.
  unfold scalars. induction rs as [|r rs IH]; [done|].
  cbn. cbn in IH. by rewrite IH.
Qed.

(** [np.array] of a list of scalars is the vector of these scalars. *)
Lemma stack_scalars (rs : list F) : stack (Arr0 <$> rs) = Ok (Arr1 rs).
Proof.
  destruct rs as [|r rs]; [done|].
  change (Arr0 <$> r :: rs) with (Arr0 r :: (Arr0 <$> rs)).
  unfold stack. change (Arr0 r :: (Arr0 <$> rs)) with (Arr0 <$> r :: rs).
  by rewrite scalars_Arr0.
Qed.

Lemma mapR_Forall2 {A B} (f : A → Result B) (l : list A) (ys : list B) :
  Forall2 (λ x y, f x = Ok y) l ys → mapR f l = Ok ys.
Proof.
  induction 1 as [|x y l ys Hx _ IH]; [done|].
  cbn. rewrite Hx. cbn. by rewrite IH.
Qed.

Lemma all_zero_rows c rows :
  all_zero (Arr2 c rows) ↔ Forall (Forall (λ x, x = of_Z 0)) rows.
Proof.
  unfold all_zero. cbn. induction rows as [|r rows IH]; cbn.
  - split; constructor.
  - rewrite Forall_app, Forall_cons, IH. done.
Qed.

Lemma at2_all_zero c rows i j :
  all_zero (Arr2 c rows) → at2 rows i j = of_Z 0.
Proof.
  rewrite all_zero_rows. intros Hz. unfold at2, at1.
  destruct (rows !! i) as [r|] eqn:Hr; [|done]. cbn.
  destruct (r !! j) as [x|] eqn:Hx; [|done]. cbn.
  eapply Forall_lookup_1 in Hr; [|exact Hz].
  eapply Forall_lookup_1 in Hx; [|exact Hr]. done.
Qed.

Lemma zip_with_add_zeros u :
  (∀ x, fadd x (of_Z 0) = x) →
  zip_with fadd u (replicate (length u) (of_Z 0)) = u.
Proof.
  intros Hadd. induction u as [|x u IH]; [done|].
  cbn. by rewrite Hadd, IH.
Qed.

(** Adding the zero matrix of its own shape leaves a trajectory as it is. *)
Lemma add_zero_matrix c rows :
  (∀ x, fadd x (of_Z 0) = x) →
  wf (Arr2 c rows) = true →
  add (Arr2 c rows)
      (Arr2 c (replicate (length rows) (replicate c (of_Z 0))))
  = Ok (Arr2 c rows).
Proof.
  intros Hadd Hwf. unfold add. cbn [elementwise].
  unfold broadcast_dim. rewrite decide_True by done.
  unfold broadcast at 1. rewrite decide_True by by rewrite length_replicate.
  assert (H : mapR
    (λ p : list F * list F,
       broadcast
         (broadcast_error (Arr2 c rows)
            (Arr2 c (replicate (length rows) (replicate c (of_Z 0)))))
         (λ x y, Ok (fadd x y)) p.1 p.2)
    (zip rows (replicate (length rows) (replicate c (of_Z 0)))) = Ok rows).
  { generalize (broadcast_error (Arr2 c rows)
            (Arr2 c (replicate (length rows) (replicate c (of_Z 0))))).
    intros err. induction rows as [|r rows IH]; [done|].
    cbn in Hwf. apply andb_prop in Hwf as [Hr Hwf].
    apply Nat.eqb_eq in Hr. cbn.
    rewrite broadcast_same by by rewrite length_replicate.
    rewrite <- Hr at 1. rewrite zip_with_add_zeros by done. cbn.
    rewrite IH by done. done. }
  cbn in H |- *. by rewrite H.
Qed.

(** [(N.T @ rate * V(time)).T] has one row per time step and one column per
    species. *)
Lemma flow_rate_shape S rowsN T rate_rows (Vt : list F) NTr flow :
  matmul (transpose (Arr2 S rowsN)) (Arr2 T rate_rows) = Ok NTr →
  mul NTr (Arr1 Vt) = Ok flow → length Vt = T →
  shape (transpose flow) = [T; S].
Proof.
  cbn. destruct (decide (length rowsN = length rate_rows)); [|done].
  intros [= <-] Hmul <-. unfold mul in Hmul. cbn in Hmul.
  unfold broadcast_dim in Hmul. rewrite decide_True in Hmul by done.
  destruct (mapR _ _) as [rows|] eqn:Hrows in Hmul; [|done].
  injection Hmul as <-. apply mapR_length in Hrows. cbn.
  by rewrite Hrows, !length_fmap, !length_seq.
Qed.

End array_facts.

(* ===================================================================== *)
(** ** The constructor *)
(* ===================================================================== *)

Section constructor.
Context {F G : Type} `{!Float F, !Libraries F G, !Collaborators F}.

(** The arguments of one construction call. *)
Variables (N Mw : ndarray F) (V : Series).
Variables (Winhat : option (ndarray F)) (uin uout : option Series).
Variables (config : option Config).

(** The reactor configuration as resolved by the data container, and the
    interpolated functions it builds from it. *)
Variables (V' : Series) (Winhat' : ndarray F) (uin' uout' : Series).
Variables (Vf uoutf : F → F) (uinf : Inlet F).

Let Sn := species_count N.
Let Pn := stream_count Winhat'.

Lemma construct_raises n0 e self :
  __init__ N Mw V Winhat uin uout n0 config unset = (Raise e, self) →
  construct N Mw V Winhat uin uout n0 config = Raise e.
Proof. unfold construct. by intros ->. Qed.

Lemma construct_returns n0 self :
  __init__ N Mw V Winhat uin uout n0 config unset = (Ok (), self) →
  construct N Mw V Winhat uin uout n0 config = Ok self.
Proof. unfold construct. by intros ->. Qed.

(** Stage by stage: what the constructor does when the check of a stage is
    the first to fail. *)

Lemma init_Mw_mismatch n0 r :
  shape0 Mw = Ok r → r ≠ Sn →
  construct N Mw V Winhat uin uout (Some n0) config
  = Raise (ValueError (Msg_Mw (shape Mw) Sn (shape N))).
Proof.
  intros HMw Hr. subst Sn. eapply construct_raises. unfold __init__.
  step_with ltac:(unfold add_stoichiometry_data; step; reflexivity).
  step. step. call HMw. step.
  enter_if. do 3 step. reflexivity.
Qed.

(** The stages of [__init__] up to and including a check that passes. *)
Ltac stage_N :=
  step_with ltac:(unfold add_stoichiometry_data; step; reflexivity).
Ltac stage_Mw HMw := step; step; call HMw; step; skip_if.
Ltac stage_config Hcfg HV :=
  call Hcfg; step_with ltac:(unfold add_volume_data; call HV; reflexivity).
Ltac stage_Winhat HW :=
  step_with ltac:(unfold add_Winhat_data; step; reflexivity);
  step; call HW; step.
Ltac stage_uin Hu :=
  step_with ltac:(unfold add_uin_data; call Hu; reflexivity); step; step.
Ltac stage_n0 Ho Hn :=
  step_with ltac:(unfold add_uout_data; call Ho; reflexivity);
  step; step; call Hn; step.

Lemma init_Winhat_mismatch n0 r :
  shape0 Mw = Ok Sn →
  add_reactor_config V Winhat uin uout config = Ok (V', Winhat', uin', uout') →
  interp_scalar "linear" V' = Ok Vf →
  shape0 Winhat' = Ok r → r ≠ Sn →
  construct N Mw V Winhat uin uout (Some n0) config
  = Raise (ValueError (Msg_Winhat (shape Winhat') Sn Pn (shape N))).
Proof.
  intros HMw Hcfg HV HW Hr. subst Sn Pn. eapply construct_raises.
  unfold __init__. stage_N. stage_Mw HMw. stage_config Hcfg HV.
  stage_Winhat HW. enter_if. do 4 step. reflexivity.
Qed.

Lemma init_uin_mismatch n0 :
  shape0 Mw = Ok Sn →
  add_reactor_config V Winhat uin uout config = Ok (V', Winhat', uin', uout') →
  interp_scalar "linear" V' = Ok Vf →
  shape0 Winhat' = Ok Sn →
  interp_vector "linear" uin' = Ok uinf →
  length (inlet_at uinf (of_Z 0)) ≠ Pn →
  construct N Mw V Winhat uin uout (Some n0) config
  = Raise (AttributeError
             (if inlet_shape uinf is Some _ then "Win" else "shape")).
Proof.
  intros HMw Hcfg HV HW Hu Hlen. subst Sn Pn. eapply construct_raises.
  unfold __init__. stage_N. stage_Mw HMw. stage_config Hcfg HV.
  stage_Winhat HW. skip_if. stage_uin Hu. enter_if.
  eapply bind_raise. unfold uin_check_message. step.
  destruct (inlet_shape uinf) as [sh|] eqn:Hsh.
  - step_with ltac:(apply lift_eq; reflexivity).
    eapply bind_raise. reflexivity.
  - eapply bind_raise. reflexivity.
Qed.

Lemma init_n0_mismatch n0 r :
  shape0 Mw = Ok Sn →
  add_reactor_config V Winhat uin uout config = Ok (V', Winhat', uin', uout') →
  interp_scalar "linear" V' = Ok Vf →
  shape0 Winhat' = Ok Sn →
  interp_vector "linear" uin' = Ok uinf →
  length (inlet_at uinf (of_Z 0)) = Pn →
  interp_scalar "linear" uout' = Ok uoutf →
  shape0 n0 = Ok r → r ≠ Sn →
  construct N Mw V Winhat uin uout (Some n0) config
  = Raise (ValueError (Msg_n0 Sn r)).
Proof.
  intros HMw Hcfg HV HW Hu Hlen Ho Hn Hr. subst Sn Pn.
  eapply construct_raises.
  unfold __init__. stage_N. stage_Mw HMw. stage_config Hcfg HV.
  stage_Winhat HW. skip_if. stage_uin Hu. skip_if. stage_n0 Ho Hn.
  enter_if. do 2 step. call Hn. reflexivity.
Qed.

Lemma init_returns n0v rowsM rowsP :
  Mw = Arr2 Sn rowsM → length rowsM = Sn →
  add_reactor_config V Winhat uin uout config = Ok (V', Winhat', uin', uout') →
  interp_scalar "linear" V' = Ok Vf →
  shape0 Winhat' = Ok Sn →
  interp_vector "linear" uin' = Ok uinf →
  length (inlet_at uinf (of_Z 0)) = Pn →
  interp_scalar "linear" uout' = Ok uoutf →
  length n0v = Sn →
  pinv Mw = Ok (Arr2 Sn rowsP) → length rowsP = Sn →
  ∃ self W0 rows,
    construct N Mw V Winhat uin uout (Some (Arr1 n0v)) config = Ok self ∧
    matmul (Arr2 Sn rowsP) Winhat' = Ok W0 ∧
    self_Win self = Some (Arr2 Pn rows) ∧
    length rows = Sn ∧ wf (Arr2 Pn rows) = true ∧
    ravel (Arr2 Pn rows) = ravel W0 ∧
    self_N self = Some N ∧ self_Mw self = Some Mw ∧ self_V self = Some Vf ∧
    self_uin self = Some uinf ∧ self_uout self = Some uoutf ∧
    self_n0 self = Some (Arr1 n0v) ∧ self_ratelaws self = None.
Proof.
  intros HMwe HrM Hcfg HV HW Hu Hlen Ho Hn Hp HrP. subst Sn Pn.
  assert (HMw : shape0 Mw = Ok (species_count N))
    by (by rewrite HMwe; cbn; rewrite HrM).
  assert (Hn0 : shape0 (Arr1 n0v) = Ok (species_count N))
    by (by cbn; rewrite Hn).
  assert (Hm0 : matmul Mw (Arr1 n0v)
                = Ok (Arr1 ((λ r, dot r n0v) <$> rowsM)))
    by (by rewrite HMwe; cbn; rewrite decide_True).
  destruct Winhat' as [x|w|P rowsW]; simpl in HW; [done| |];
    injection HW as HW.
  - assert (HW0 : shape0 (Arr1 w) = Ok (species_count N))
      by (by cbn; rewrite HW).
    assert (HWin : matmul (Arr2 (species_count N) rowsP) (Arr1 w)
                   = Ok (Arr1 ((λ r, dot r w) <$> rowsP)))
      by (by cbn; rewrite decide_True).
    eexists _, _, _. split; [|split; [exact HWin|]].
    + eapply construct_returns. unfold __init__.
      stage_N. stage_Mw HMw. stage_config Hcfg HV. stage_Winhat HW0.
      skip_if. stage_uin Hu. skip_if. stage_n0 Ho Hn0. skip_if.
      step. call Hp. step. call HWin. step. step.
      step_with ltac:(eapply if_true; [reflexivity|];
                      step; step_with ltac:(apply lift_eq; reflexivity);
                      reflexivity).
      step. step. call Hm0. reflexivity.
    + split; [reflexivity|]. split; [by rewrite !length_fmap|].
      split; [|split; [by simpl; rewrite concat_singletons|by cbn]].
      apply (wf_rows 1). by intros r [x [-> _]]%list_elem_of_fmap.
  - assert (HW0 : shape0 (Arr2 P rowsW) = Ok (species_count N))
      by (by cbn; rewrite HW).
    assert (HWin : matmul (Arr2 (species_count N) rowsP) (Arr2 P rowsW)
        = Ok (Arr2 P ((λ r, dot r <$> (column rowsW <$> seq 0 P)) <$> rowsP)))
      by (by cbn; rewrite decide_True).
    eexists _, _, _. split; [|split; [exact HWin|]].
    + eapply construct_returns. unfold __init__.
      stage_N. stage_Mw HMw. stage_config Hcfg HV. stage_Winhat HW0.
      skip_if. stage_uin Hu. skip_if. stage_n0 Ho Hn0. skip_if.
      step. call Hp. step. call HWin. step. step.
      step_with ltac:(eapply if_false; [cbn; lia|reflexivity]).
      step. step. call Hm0. reflexivity.
    + split; [reflexivity|]. split; [by rewrite length_fmap|].
      split; [|by cbn].
      apply (wf_rows P). intros r [x [-> _]]%list_elem_of_fmap.
      rewrite length_fmap, length_fmap. apply length_seq.
Qed.

End constructor.

(* ===================================================================== *)
(** ** The mole balance *)
(* ===================================================================== *)

Section mole_balance.
Context {F G : Type} `{!Float F, !Libraries F G, !Collaborators F}.

Lemma mole_balance_value self y t S P N Win Mw Vf uoutf uinf rs :
  balanced self y t S P N Win Mw Vf uoutf uinf rs →
  mole_balance self (Arr1 y) t
  = Ok (Arr1 (zip_with fsub
                (zip_with fadd
                   ((λ x, fmul x (Vf t)) <$>
                      ((λ col, dot col rs) <$> (column N <$> seq 0 S)))
                   ((λ row, dot row (inlet_at uinf t)) <$> Win))
                ((λ x, fdiv x (total_mass Mw y)) <$>
                   (fmul (uoutf t) <$> y)))).
Proof.
  intros [HV HMw HN HWin Huin Huout Hy HWr Hul HNr (rls & Hrl & Hrs)].
  assert (Hlen : length rls = length rs) by by eapply Forall2_length.
  unfold mole_balance. rewrite HV, Hrl, HMw, HN, HWin, Huin, Huout. cbn.
  rewrite (mapR_Forall2 _ _ (Arr0 <$> rs)) by by apply Forall2_fmap_r.
  cbn. rewrite stack_scalars. cbn.
  rewrite (decide_True (P := S = length y)) by done.
  rewrite (decide_True (P := length N = length rs)) by done.
  rewrite (decide_True (P := P = length (inlet_at uinf t))) by done.
  cbn. rewrite broadcast_same by by rewrite !length_fmap, length_seq.
  cbn. rewrite broadcast_same; [done|].
  rewrite length_zip_with, !length_fmap, length_seq. lia.
Qed.

Lemma balance_components S N Win Mw rs Vt uin_t uout_t y :
  length y = S → length Win = S →
  zip_with fsub
    (zip_with fadd
       ((λ x, fmul x Vt) <$> ((λ col, dot col rs) <$> (column N <$> seq 0 S)))
       ((λ row, dot row uin_t) <$> Win))
    ((λ x, fdiv x (total_mass Mw y)) <$> (fmul uout_t <$> y))
  = dydt N Win Mw rs Vt uin_t uout_t y <$> seq 0 S.
Proof.
  intros Hy HW. apply list_eq. intros i.
  rewrite !lookup_zip_with, !list_lookup_fmap.
  destruct (decide (i < S)) as [Hi|Hi].
  - rewrite lookup_seq_lt by done.
    destruct (lookup_lt_is_Some_2 y i) as [yi Hyi]; [lia|].
    destruct (lookup_lt_is_Some_2 Win i) as [row Hrow]; [lia|].
    rewrite Hyi, Hrow. cbn.
    unfold dydt, reaction_term, inlet_term, outlet_term.
    by rewrite Hrow, (at1_lookup _ _ _ Hyi).
  - rewrite lookup_seq_ge by lia. done.
Qed.

End mole_balance.

(* ===================================================================== *)
(** ** One run of the simulation *)
(* ===================================================================== *)

Section run.
Context {F G : Type} `{!Float F, !Libraries F G, !Collaborators F}.

Lemma comprehension_reads ratelaws Vf time traj self :
  self__sol self = Some traj → self_V self = Some Vf →
  mapM_self (λ ratelaw : ndarray F → Result (ndarray F),
               _sol ← attr "_sol" self__sol;
               V ← attr "V" self_V;
               c ← lift (div (transpose _sol) (V_of V time));
               lift (ratelaw c)) ratelaws self
  = (rates_at ratelaws Vf time traj, self).
Proof.
  intros Hsol HV. unfold rates_at.
  induction ratelaws as [|ratelaw ratelaws IH]; [done|].
  cbn [mapM_self mapR].
  destruct (div (transpose traj) (V_of Vf time)) as [c|e] eqn:Hc.
  - destruct (ratelaw c) as [r|e] eqn:Hr.
    + eapply bind_ok.
      { eapply bind_ok; [unfold attr; by rewrite Hsol|].
        eapply bind_ok; [unfold attr; by rewrite HV|].
        eapply bind_ok; [by apply lift_eq|]. by apply lift_eq. }
      cbn. rewrite Hr. cbn.
      destruct (mapR _ ratelaws) as [rs|e].
      * eapply bind_ok; [exact IH|]. done.
      * eapply bind_raise. exact IH.
    + cbn. rewrite Hr. cbn. eapply bind_raise.
      eapply bind_ok; [unfold attr; by rewrite Hsol|].
      eapply bind_ok; [unfold attr; by rewrite HV|].
      eapply bind_ok; [by apply lift_eq|]. by apply lift_eq.
  - cbn. eapply bind_raise.
    eapply bind_ok; [unfold attr; by rewrite Hsol|].
    eapply bind_ok; [unfold attr; by rewrite HV|].
    eapply bind_raise. by apply lift_eq.
Qed.

Lemma comprehension_no_V ratelaws time traj self rates self' :
  self__sol self = Some traj → self_V self = None →
  mapM_self (λ ratelaw : ndarray F → Result (ndarray F),
               _sol ← attr "_sol" self__sol;
               V ← attr "V" self_V;
               c ← lift (div (transpose _sol) (V_of V time));
               lift (ratelaw c)) ratelaws self
  = (Ok rates, self') → self' = self.
Proof.
  intros Hsol HV. destruct ratelaws as [|ratelaw ratelaws]; cbn.
  - by intros [= _ <-].
  - intros H. apply bind_inv in H as (? & ? & H & _).
    apply bind_inv in H as (? & ? & H1 & H).
    apply bind_inv in H as (? & ? & H2 & H).
    unfold attr in H1, H2. injection H1 as _ <-.
    rewrite HV in H2. done.
Qed.

(** Reading an attribute of an object built by assignments. *)
Ltac fields H :=
  cbn [self_N self_S self_Mw self_V self_Winhat self_P self_uin
       self_uout self_n0 self_Win self_m0 self_ratelaws self_time
       self__sol self__reaction_rate self__flow_rate self__xr
       self__xin self__lamda set_N set_S set_Mw set_V set_Winhat set_P
       set_uin set_uout set_n0 set_Win set_m0 set_ratelaws set_time
       set__sol set__reaction_rate set__flow_rate set__xr set__xin
       set__lamda] in H.

(** Inversion of one statement of a run that returned. *)
Ltac inv_bind H Hs :=
  apply bind_inv in H as (? & ? & Hs & H);
  cbv beta iota delta [on_self attr modify get lift obj rng draws] in Hs;
  fields Hs.

Lemma run_simulation_inv time alpha o g ds d w' :
  run_simulation time alpha {| obj := o; rng := g; draws := ds |} = (Ok d, w') →
  ∃ tr, returns time alpha o g tr ∧ d = results tr ∧
        w' = {| obj := after_run time tr o; rng := t_rng tr;
                draws := ds ++ [(zeros (t_nSpecies tr),
                                 square (t_noise_std tr), t_nSamples tr)] |}.
Proof.
  intros H. unfold run_simulation in H.
  inv_bind H Hs. injection Hs as <- <-.
  inv_bind H Hs. injection Hs as <- <-.
  inv_bind H Hs. injection Hs as Hn0 <-.
  inv_bind H Hs. injection Hs as Hsol <-.
  inv_bind H Hs. injection Hs as HnSa <-.
  inv_bind H Hs. injection Hs as HnSp <-.
  inv_bind H Hs. injection Hs as Hpeak <-.
  inv_bind H Hs. injection Hs as Hpeaks <-.
  inv_bind H Hs. injection Hs as Hstd <-.
  apply bind_inv in H as (noise & ? & Hs & H).
  unfold np_random_multivariate_normal in Hs. cbn [obj rng draws] in Hs.
  destruct (multivariate_normal _ _ _ g) as [rnoise g'] eqn:Hnoise.
  injection Hs as -> <-.
  inv_bind H Hs. injection Hs as Hnoisy <-.
  inv_bind H Hs. injection Hs as <- <-.
  inv_bind H Hs. injection Hs as Hrls <-.
  apply bind_inv in H as (rates & ? & Hs & H).
  cbv beta iota delta [on_self obj rng draws] in Hs.
  destruct (self_V o) as [Vf|] eqn:HV.
  2:{ destruct (mapM_self _ _ _) as [r self'] eqn:Hc in Hs.
      injection Hs as -> <-.
      apply comprehension_no_V with (traj := x6) in Hc; [|done|done].
      subst self'.
      inv_bind H Hs. injection Hs as _ <-.
      inv_bind H Hs. injection Hs as _ <-.
      inv_bind H Hs. injection Hs as _ <-.
      inv_bind H Hs. injection Hs as _ <-.
      inv_bind H Hs. injection Hs as _ <-.
      inv_bind H Hs. rewrite HV in Hs. done. }
  rewrite (comprehension_reads _ Vf _ x6) in Hs by done.
  injection Hs as Hrates <-.
  inv_bind H Hs. injection Hs as Hrr <-.
  inv_bind H Hs. injection Hs as <- <-.
  inv_bind H Hs. injection Hs as HN <-.
  inv_bind H Hs. injection Hs as <- <-.
  inv_bind H Hs. injection Hs as HNTr <-.
  inv_bind H Hs. rewrite HV in Hs. injection Hs as <- <-.
  inv_bind H Hs. injection Hs as Hflow <-.
  inv_bind H Hs. injection Hs as <- <-.
  inv_bind H Hs. injection Hs as <- <-.
  inv_bind H Hs. injection Hs as <- <-.
  inv_bind H Hs. injection Hs as HN' <-.
  inv_bind H Hs. injection Hs as HWin <-.
  inv_bind H Hs. injection Hs as Hn0' <-.
  apply bind_inv in H as ([[[q0T S0T] M0T] Q0T] & ? & Hs & H).
  injection Hs as Hmat <-. cbv beta iota in H.
  inv_bind H Hs. injection Hs as <- <-.
  inv_bind H Hs. injection Hs as Hxr <-.
  inv_bind H Hs. injection Hs as <- <-.
  inv_bind H Hs. injection Hs as <- <-.
  inv_bind H Hs. injection Hs as Hxin <-.
  inv_bind H Hs. injection Hs as <- <-.
  inv_bind H Hs. injection Hs as <- <-.
  inv_bind H Hs. injection Hs as Hlamda <-.
  inv_bind H Hs. injection Hs as <- <-.
  inv_bind H Hs. injection Hs as <- <-.
  inv_bind H Hs. injection Hs as <- <-.
  inv_bind H Hs. injection Hs as <- <-.
  inv_bind H Hs. injection Hs as <- <-.
  inv_bind H Hs. injection Hs as <- <-.
  inv_bind H Hs. injection Hs as <- <-.
  inv_bind H Hs. injection Hs as Hxout <-.
  injection H as <- <-.
  destruct (self_n0 o) as [n0|] eqn:En0; [|done].
  destruct (self_ratelaws o) as [rls|] eqn:Erls; [|done].
  destruct (self_N o) as [N|] eqn:EN; [|done].
  destruct (self_Win o) as [Win|] eqn:EWin; [|done].
  cbn in Hn0, Hn0', Hrls, HN, HN', HWin. simplify_eq.
  eexists {| t_rng := g' |}.
  split; [|split; reflexivity].
  constructor; cbn [t_n0 t_sol t_nSamples t_nSpecies t_peak t_peaks
    t_noise_std t_noise t_rng t_noisy t_ratelaws t_V t_rates t_reaction_rate
    t_N t_NTr t_flow t_Win t_q0T t_S0T t_M0T t_Q0T t_xr t_xin t_lamda t_xout];
    try eassumption; try reflexivity.
Qed.

Lemma on_self_attr {A} name (proj : Simulate F → option A) o (g : G) ds a :
  proj o = Some a →
  on_self (attr name proj) {| obj := o; rng := g; draws := ds |}
  = (Ok a, {| obj := o; rng := g; draws := ds |}).
Proof. intros H. unfold on_self, attr. cbn. by rewrite H. Qed.

Lemma on_self_modify (f : Simulate F → Simulate F) o (g : G) ds :
  on_self (modify f) {| obj := o; rng := g; draws := ds |}
  = (Ok (), {| obj := f o; rng := g; draws := ds |}).
Proof. reflexivity. Qed.

Lemma sampler_eq mean cov size (o : Simulate F) g ds r g' :
  multivariate_normal mean cov size g = (r, g') →
  np_random_multivariate_normal mean cov size
    {| obj := o; rng := g; draws := ds |}
  = (r, {| obj := o; rng := g'; draws := ds ++ [(mean, cov, size)] |}).
Proof. intros H. unfold np_random_multivariate_normal. cbn. by rewrite H. Qed.

(** Forward steps of a run. *)
Ltac read H :=
  eapply bind_ok; [apply on_self_attr; exact H | cbv beta iota].
Ltac reread :=
  eapply bind_ok; [apply on_self_attr; reflexivity | cbv beta iota].
Ltac assign :=
  eapply bind_ok; [apply on_self_modify | cbv beta iota].
Ltac compute_with H :=
  eapply bind_ok; [apply lift_eq; exact H | cbv beta iota].

(** The converse: a trace determines the run. *)
Lemma run_simulation_returns time alpha o g ds tr :
  returns time alpha o g tr →
  run_simulation time alpha {| obj := o; rng := g; draws := ds |}
  = (Ok (results tr),
     {| obj := after_run time tr o; rng := t_rng tr;
        draws := ds ++ [(zeros (t_nSpecies tr),
                         square (t_noise_std tr), t_nSamples tr)] |}).
Proof.
  intros [Hn0 Hsol HnSa HnSp Hpeak Hpeaks Hstd Hnoise Hnoisy Hrls HV Hrates
    Hrr HN HNTr Hflow HWin Hmat Hxr Hxin Hlamda Hxout].
  unfold run_simulation.
  assign. eapply bind_ok; [reflexivity|cbv beta iota].
  read Hn0. compute_with Hsol. compute_with HnSa.
  compute_with HnSp. compute_with Hpeak. compute_with Hpeaks.
  compute_with Hstd.
  eapply bind_ok; [apply sampler_eq; exact Hnoise|cbv beta iota].
  compute_with Hnoisy. assign. read Hrls.
  eapply bind_ok.
  { unfold on_self. cbn [obj rng draws].
    rewrite (comprehension_reads _ (t_V tr) _ (t_noisy tr)) by done.
    rewrite Hrates. reflexivity. }
  cbv beta iota.
  compute_with Hrr. assign. read HN. reread.
  compute_with HNTr. read HV. compute_with Hflow. assign.
  reread. assign. read HN. read HWin. read Hn0.
  compute_with Hmat.
  reread. compute_with Hxr. assign.
  reread. compute_with Hxin. assign.
  reread. compute_with Hlamda. assign.
  do 6 reread. compute_with Hxout. reflexivity.
Qed.

Lemma keeps_bind {A B} (m : M (World F G) A) (f : A → M (World F G) B) :
  keeps_rng m → (∀ a, keeps_rng (f a)) → keeps_rng (m ≫= f).
Proof.
  intros Hm Hf w. unfold mbind, M_bind. specialize (Hm w).
  destruct (m w) as [[a|e] w1]; cbn in *; [|done].
  destruct (Hf a w1) as [-> ->]. done.
Qed.

Lemma keeps_on_self {A} (m : M (Simulate F) A) :
  keeps_rng (on_self (G := G) m).
Proof. intros w. unfold on_self. by destruct (m (obj w)). Qed.

Lemma keeps_lift {A} (r : Result A) :
  keeps_rng (lift (St := World F G) r).
Proof. done. Qed.

Lemma keeps_ret {A} (a : A) : keeps_rng (mret a : M (World F G) A).
Proof. done. Qed.

Ltac keeps :=
  repeat first
    [ apply keeps_on_self | apply keeps_lift | apply keeps_ret
    | apply keeps_bind; [|intros ?]
    | match goal with
      | |- keeps_rng (let '(_, _) := ?p in _) => destruct p
      end ].

Lemma draws_once time alpha o (g : G) ds n0 c r rows :
  self_n0 o = Some n0 →
  odeint (mole_balance (set_time time o)) n0 time = Ok (Arr2 c (r :: rows)) →
  ∃ cov,
    noise_covariance alpha (Arr2 c (r :: rows)) = Ok cov ∧
    let w' := (run_simulation time alpha
                 {| obj := o; rng := g; draws := ds |}).2 in
    draws w' = ds ++ [(zeros c, cov, S (length rows))] ∧
    rng w' = (multivariate_normal (zeros c) cov (S (length rows)) g).2.
Proof.
  intros Hn0 Hsol. eexists. split; [reflexivity|]. cbv zeta.
  unfold run_simulation.
  erewrite bind_ok; [|apply on_self_modify|reflexivity].
  erewrite bind_ok; [|reflexivity|reflexivity]. cbv beta.
  erewrite bind_ok; [|apply on_self_attr; exact Hn0|reflexivity].
  erewrite bind_ok; [|apply lift_eq; exact Hsol|reflexivity].
  do 5 (erewrite bind_ok; [|apply lift_eq; reflexivity|reflexivity]).
  cbv beta. cbn [obj rng draws].
  match goal with
  | |- context [np_random_multivariate_normal ?mean ?cov ?size] =>
      destruct (multivariate_normal mean cov size g) as [noise g'] eqn:Hnoise
  end.
  destruct noise as [noise|e].
  - erewrite bind_ok; [|apply sampler_eq; exact Hnoise|reflexivity].
    match goal with
    | |- context [(?tail ?w).2] =>
        assert (Hk : keeps_rng tail) by keeps; destruct (Hk w) as [-> ->]
    end.
    cbn [snd draws rng]. split; [reflexivity|].
    unfold noise_covariance in *. cbn in Hnoise |- *. by rewrite Hnoise.
  - erewrite bind_raise; [|apply sampler_eq; exact Hnoise].
    cbn [snd draws rng]. split; [reflexivity|].
    unfold noise_covariance in *. cbn in Hnoise |- *. by rewrite Hnoise.
Qed.

(** *** Runs without noise *)

Lemma mole_balance_inputs time time' (a b : Simulate F) :
  same_inputs a b →
  mole_balance (set_time time a) = mole_balance (set_time time' b).
Proof.
  destruct a, b. unfold same_inputs. cbn.
  intros (-> & -> & -> & -> & -> & -> & -> & ->). reflexivity.
Qed.

Lemma after_run_inputs time (tr : Trace F G) (o : Simulate F) :
  same_inputs (after_run time tr o) o.
Proof. by destruct o. Qed.

Lemma zero_covariance (peaks std : ndarray F) :
  fdiv (of_Z 0) (of_Z 100) = of_Z 0 →
  (∀ x, fmul (of_Z 0) x = of_Z 0) →
  mul (Arr0 (fdiv (of_Z 0) (of_Z 100))) peaks = Ok std →
  all_zero (square std).
Proof.
  intros Hdiv Hmul. unfold mul. rewrite elementwise_scalar_l, Hdiv.
  intros [= <-]. unfold all_zero.
  destruct peaks as [x|v|c rows]; cbn.
  - constructor; [|done]. by rewrite !Hmul.
  - apply Forall_fmap, Forall_fmap, Forall_true.
    intros x. cbn. by rewrite !Hmul.
  - apply Forall_concat, Forall_fmap, Forall_fmap, Forall_true.
    intros r. cbn. apply Forall_fmap, Forall_fmap, Forall_true.
    intros x. cbn. by rewrite !Hmul.
Qed.

(** The covariance of a run is a square matrix over the species. *)
Lemma covariance_shape (a : F) (sol peak peaks std : ndarray F) nSpecies :
  shape1 sol = Ok nSpecies → max_axis0 sol = Ok peak →
  diag peak = Ok peaks → mul (Arr0 a) peaks = Ok std →
  ∃ rows, square std = Arr2 nSpecies rows ∧ length rows = nSpecies.
Proof.
  destruct sol as [x|v|c [|r rows]]; try done.
  cbn. intros [= <-] [= <-]. cbn. intros [= <-]. cbn. intros [= <-]. cbn.
  rewrite length_fmap, length_seq. eexists. split; [reflexivity|].
  by rewrite length_fmap, length_fmap, length_imap, length_fmap, length_seq.
Qed.

Lemma zero_noise_trace time o (g : G) tr :
  noise_free F G → returns time (of_Z 0) o g tr →
  t_noise tr = Arr2 (t_nSpecies tr)
                 (replicate (t_nSamples tr)
                    (replicate (t_nSpecies tr) (of_Z 0))) ∧
  t_noisy tr = t_sol tr.
Proof.
  intros [Hdiv Hmul Hadd Hdeg Hwf] Hret.
  pose proof (zero_covariance _ _ Hdiv Hmul (r_noise_std _ _ _ _ _ Hret))
    as Hcov.
  pose proof (r_noise _ _ _ _ _ Hret) as Hn.
  destruct (covariance_shape _ _ _ _ _ _ (r_nSpecies _ _ _ _ _ Hret)
              (r_peak _ _ _ _ _ Hret) (r_peaks _ _ _ _ _ Hret)
              (r_noise_std _ _ _ _ _ Hret)) as (cov & Hsq & Hlen).
  rewrite Hsq in Hn, Hcov.
  pose proof (Hdeg (replicate (t_nSpecies tr) (of_Z 0)) cov (t_nSamples tr) g)
    as Hz.
  rewrite length_replicate in Hz. specialize (Hz Hlen Hcov).
  unfold zeros in Hn. rewrite Hn in Hz. cbn in Hz. injection Hz as Hz.
  split; [done|].
  pose proof (r_noisy _ _ _ _ _ Hret) as Hy.
  pose proof (Hwf _ _ _ _ (r_sol _ _ _ _ _ Hret)) as Hw.
  pose proof (r_nSamples _ _ _ _ _ Hret) as HT.
  pose proof (r_nSpecies _ _ _ _ _ Hret) as HS.
  rewrite Hz in Hy.
  destruct (t_sol tr) as [x|v|c rows]; [done|done|].
  cbn in HT, HS. injection HT as HT. injection HS as HS.
  rewrite <- HT, <- HS in Hy.
  rewrite add_zero_matrix in Hy by done. by injection Hy.
Qed.

(** At [alpha = 0], a run that returns can be replayed from any state of the
    random generator, on any object with the same inputs. *)
Lemma replay time o (g : G) tr o2 (g2 : G) :
  noise_free F G → same_inputs o2 o → returns time (of_Z 0) o g tr →
  returns time (of_Z 0) o2 g2
    (with_rng (multivariate_normal (zeros (t_nSpecies tr))
                 (square (t_noise_std tr)) (t_nSamples tr) g2).2 tr).
Proof.
  intros Hfree Hin Hret.
  destruct (zero_noise_trace _ _ _ _ Hfree Hret) as [Hnoise _].
  pose proof (mole_balance_inputs time time _ _ Hin) as Hmb.
  destruct Hin as (HN & HMw & HV & Huin & Huout & Hn0 & HWin & Hrls).
  destruct Hfree as [Hdiv Hmul Hadd Hdeg Hwf].
  destruct Hret as [Rn0 Rsol RnSa RnSp Rpeak Rpeaks Rstd Rnoise Rnoisy Rrls
    RV Rrates Rrr RN RNTr Rflow RWin Rmat Rxr Rxin Rlamda Rxout].
  constructor; cbn [with_rng t_n0 t_sol t_nSamples t_nSpecies t_peak t_peaks
    t_noise_std t_noise t_rng t_noisy t_ratelaws t_V t_rates t_reaction_rate
    t_N t_NTr t_flow t_Win t_q0T t_S0T t_M0T t_Q0T t_xr t_xin t_lamda t_xout];
    try assumption; try congruence.
  destruct (covariance_shape _ _ _ _ _ _ RnSp Rpeak Rpeaks Rstd)
    as (cov & Hsq & Hlen).
  pose proof (zero_covariance _ _ Hdiv Hmul Rstd) as Hcov.
  rewrite Hsq in Hcov |- *.
  pose proof (Hdeg (replicate (t_nSpecies tr) (of_Z 0)) cov (t_nSamples tr) g2)
    as Hz.
  rewrite length_replicate in Hz. specialize (Hz Hlen Hcov).
  fold (zeros (t_nSpecies tr)) in Hz.
  rewrite Hnoise.
  destruct (multivariate_normal _ _ _ g2) as [r2 g2']. cbn in Hz |- *.
  by rewrite Hz.
Qed.

End run.

(* ===================================================================== *)
(** ** The instance meets the assumptions of a noise-free run *)
(* ===================================================================== *)

Section exact_instance.
Import Exact.

Lemma euler_lengths f y t grid rest :
  euler f y t grid = Ok rest → Forall (λ r, length r = length y) rest.
Proof.
  revert y t rest. induction grid as [|t' grid IH]; intros y t rest; cbn.
  - intros [= <-]. constructor.
  - destruct (f (Arr1 y) t) as [[x|d|c rows]|e]; cbn; try done.
    destruct (decide (length d = length y)) as [Hd|]; [|done].
    destruct (euler f _ t' grid) as [rest'|e] eqn:Hrest; cbn; [|done].
    intros [= <-].
    assert (Hy : length (zip_with (λ yi di, Qcplus yi (Qcmult (Qcminus t' t) di))
                           y d) = length y)
      by (rewrite length_zip_with; lia).
    constructor; [done|]. apply IH in Hrest. rewrite Hy in Hrest. done.
Qed.

Lemma euler_odeint_wf f y0 t sol :
  euler_odeint f y0 t = Ok sol → wf sol = true.
Proof.
  unfold euler_odeint. destruct y0 as [x|y|c rows]; try done.
  destruct t as [|t0 grid]; [done|].
  destruct (euler f y t0 grid) as [rest|e] eqn:Hrest; cbn; [|done].
  intros [= <-]. apply wf_rows. intros r [->|Hr]%elem_of_cons; [done|].
  apply euler_lengths in Hrest. by eapply Forall_forall in Hrest.
Qed.

Lemma shift_sampler_degenerate mean rows size g :
  length rows = length mean →
  all_zero (Arr2 (length mean) rows) →
  (shift_sampler (Arr1 mean) (Arr2 (length mean) rows) size g).1
  = Ok (Arr2 (length mean) (replicate size mean)).
Proof.
  intros Hlen Hz. unfold shift_sampler. rewrite decide_True by done. cbn.
  do 2 f_equal.
  assert (Hrow : ∀ k,
    imap (λ i mi, Qcplus mi (Qcmult (at2 rows i i) (jitter (g + k)))) mean
    = mean).
  { intros k. apply list_eq. intros i. rewrite list_lookup_imap.
    destruct (mean !! i) as [mi|]; [|done]. cbn. f_equal.
    rewrite (at2_all_zero _ _ _ _ Hz). cbn.
    change (Q2Qc (inject_Z 0)) with 0%Qc.
    by rewrite Qcmult_0_l, Qcplus_0_r. }
  assert (replicate size mean = replicate (length (seq 0 size)) mean) as ->
    by by rewrite length_seq.
  induction (seq 0 size) as [|k l IH]; [done|].
  cbn. by rewrite Hrow, IH.
Qed.

Lemma exact_noise_free : noise_free Qc nat.
Proof.
  constructor.
  - by apply Qc_is_canon.
  - intros x. apply Qcmult_0_l.
  - intros x. apply Qcplus_0_r.
  - apply shift_sampler_degenerate.
  - apply euler_odeint_wf.
Qed.

End exact_instance.

(* ===================================================================== *)
(** ** The properties of the engine *)
(* ===================================================================== *)

Section properties.
Context {F G : Type} `{!Float F, !Libraries F G, !Collaborators F}.

(** *** Construction *)

(** C6. Constructing an engine with [n0 = None] fails with the error raised
    for a missing [n0] ([ValueError("n0 cannot be None")]), whatever the
    other arguments are. *)
Theorem construct_without_n0 N Mw V Winhat uin uout config :
  construct N Mw V Winhat uin uout None config
  = Raise (ValueError Msg_n0_none).
Proof. reflexivity. Qed.

(** C2. When the checks on Mw and Winhat pass and the stream count of
    [uin(0)] differs from P, construction does not fail with the dimension
    error of lines 54-56: building its message reads [self.uin.shape] and
    [self.Win.shape], and [Win] is only assigned on line 65, so an
    [AttributeError] is raised instead, and no [ValueError] with the
    offending shapes. *)
Theorem uin_mismatch_raises_AttributeError
    N Mw V Winhat uin uout config n0 V' Winhat' uin' uout' Vf uinf :
  shape0 Mw = Ok (species_count N) →
  add_reactor_config V Winhat uin uout config = Ok (V', Winhat', uin', uout') →
  interp_scalar "linear" V' = Ok Vf →
  shape0 Winhat' = Ok (species_count N) →
  interp_vector "linear" uin' = Ok uinf →
  length (inlet_at uinf (of_Z 0)) ≠ stream_count Winhat' →
  (∃ attribute,
     construct N Mw V Winhat uin uout (Some n0) config
     = Raise (AttributeError attribute)) ∧
  ∀ m, construct N Mw V Winhat uin uout (Some n0) config
       ≠ Raise (ValueError m).
Proof.
  intros HMw Hcfg HV HW Hu Hlen.
  rewrite (init_uin_mismatch N Mw V Winhat uin uout config V' Winhat' uin'
             uout' Vf uinf n0 HMw Hcfg HV HW Hu Hlen).
  split; [by eexists|done].
Qed.

(** C7. Construction validation is staged in the order Mw, Winhat, uin, n0,
    each check right after its attribute is set, and construction raises at
    the first check that fails, whatever the later arguments are. At the Mw,
    Winhat and n0 stages the exception reports that inconsistency; at the
    uin stage the report is not produced (an [AttributeError] is raised while
    its message is built). *)
Theorem construction_is_staged
    N Mw V Winhat uin uout config n0 V' Winhat' uin' uout' Vf uoutf uinf
    rMw rWinhat rn0 :
  add_reactor_config V Winhat uin uout config = Ok (V', Winhat', uin', uout') →
  interp_scalar "linear" V' = Ok Vf →
  interp_vector "linear" uin' = Ok uinf →
  interp_scalar "linear" uout' = Ok uoutf →
  shape0 Mw = Ok rMw → shape0 Winhat' = Ok rWinhat → shape0 n0 = Ok rn0 →
  let S := species_count N in
  let P := stream_count Winhat' in
  let streams := length (inlet_at uinf (of_Z 0)) in
  let outcome := construct N Mw V Winhat uin uout (Some n0) config in
  (rMw ≠ S →
   outcome = Raise (ValueError (Msg_Mw (shape Mw) S (shape N)))) ∧
  (rMw = S → rWinhat ≠ S →
   outcome = Raise (ValueError (Msg_Winhat (shape Winhat') S P (shape N)))) ∧
  (rMw = S → rWinhat = S → streams ≠ P →
   ∃ attribute, outcome = Raise (AttributeError attribute)) ∧
  (rMw = S → rWinhat = S → streams = P → rn0 ≠ S →
   outcome = Raise (ValueError (Msg_n0 S rn0))).
Proof.
  intros Hcfg HV Hu Ho HMw HW Hn. cbv zeta. split_and!.
  - intros Hr. by eapply init_Mw_mismatch.
  - intros -> Hr. by eapply init_Winhat_mismatch.
  - intros -> -> Hlen. eexists. by eapply init_uin_mismatch.
  - intros -> -> Hlen Hr. by eapply init_n0_mismatch.
Qed.

(** C3. For consistent shapes (Mw of shape (S, S), Winhat with S rows or a
    vector of length S, [uin(0)] of length P, n0 of length S) construction
    returns, and the stored [Win] is a 2-D array of shape (S, P) holding the
    elements of [pinv(Mw) @ Winhat], also when that product is 1-D. *)
Theorem Win_is_S_by_P
    N Mw V Winhat uin uout config V' Winhat' uin' uout' Vf uoutf uinf
    n0 rowsMw rows_pinv :
  let S := species_count N in
  let P := stream_count Winhat' in
  Mw = Arr2 S rowsMw → length rowsMw = S →
  add_reactor_config V Winhat uin uout config = Ok (V', Winhat', uin', uout') →
  interp_scalar "linear" V' = Ok Vf →
  shape0 Winhat' = Ok S →
  interp_vector "linear" uin' = Ok uinf →
  length (inlet_at uinf (of_Z 0)) = P →
  interp_scalar "linear" uout' = Ok uoutf →
  length n0 = S →
  pinv Mw = Ok (Arr2 S rows_pinv) → length rows_pinv = S →
  ∃ self product Win,
    construct N Mw V Winhat uin uout (Some (Arr1 n0)) config = Ok self ∧
    matmul (Arr2 S rows_pinv) Winhat' = Ok product ∧
    self_Win self = Some Win ∧
    shape Win = [S; P] ∧ wf Win = true ∧ ravel Win = ravel product.
Proof.
  intros S P HMw HrM Hcfg HV HW Hu Hlen Ho Hn Hp HrP.
  destruct (init_returns N Mw V Winhat uin uout config V' Winhat' uin' uout'
              Vf uoutf uinf n0 rowsMw rows_pinv HMw HrM Hcfg HV HW Hu Hlen Ho
              Hn Hp HrP)
    as (self & W0 & rows & Hc & Hm & HWin & Hrows & Hwf & Hravel & _).
  exists self, W0, (Arr2 P rows). split_and!; try done.
  cbn. by rewrite Hrows.
Qed.

(** *** The mole balance *)

Lemma mole_balance_components self y t S P N Win Mw Vf uoutf uinf rs :
  balanced self y t S P N Win Mw Vf uoutf uinf rs →
  mole_balance self (Arr1 y) t
  = Ok (Arr1 (dydt N Win Mw rs (Vf t) (inlet_at uinf t) (uoutf t) y
              <$> seq 0 S)).
Proof.
  intros Hb. rewrite (mole_balance_value _ _ _ _ _ _ _ _ _ _ _ _ Hb).
  destruct Hb as [_ _ _ _ _ _ Hy HW _ _ _].
  by rewrite (balance_components S N Win Mw rs _ _ _ y Hy HW).
Qed.

(** C1. With the rate laws bound, for a state [y] of length S and a time
    [t], [mole_balance(y, t)] returns [Nᵗ·r·V(t) + Win·uin(t) − uout(t)·y/m],
    where [r] holds the rate laws evaluated at [c = y / V(t)] and
    [m = sum(Mw @ y)]: component [i] of the result is [dydt ... i]. *)
Theorem mole_balance_spec self y t S P N Win Mw Vf uoutf uinf rs :
  balanced self y t S P N Win Mw Vf uoutf uinf rs →
  mole_balance self (Arr1 y) t
  = Ok (Arr1 (dydt N Win Mw rs (Vf t) (inlet_at uinf t) (uoutf t) y
              <$> seq 0 S)).
Proof. apply mole_balance_components. Qed.

(** C9. The division by the total mass [m = sum(Mw @ y)] is unguarded:
    [mole_balance] returns for every state, with [uout(t)·y[i] / m] as the
    outlet term of component [i] whatever [m] is; when [m] is zero the term
    is the quotient by zero of the arithmetic, returned as it is. *)
Theorem outlet_division_unguarded self y t S P N Win Mw Vf uoutf uinf rs :
  balanced self y t S P N Win Mw Vf uoutf uinf rs →
  ∃ d, mole_balance self (Arr1 y) t = Ok (Arr1 d) ∧ length d = S ∧
    (∀ i, i < S →
       at1 d i = fsub (fadd (reaction_term N rs (Vf t) i)
                            (inlet_term Win (inlet_at uinf t) i))
                      (fdiv (fmul (uoutf t) (at1 y i)) (total_mass Mw y))) ∧
    (total_mass Mw y = of_Z 0 →
     ∀ i, i < S →
       at1 d i = fsub (fadd (reaction_term N rs (Vf t) i)
                            (inlet_term Win (inlet_at uinf t) i))
                      (fdiv (fmul (uoutf t) (at1 y i)) (of_Z 0))).
Proof.
  intros Hb. eexists. split; [by eapply mole_balance_components|].
  split; [by rewrite length_fmap, length_seq|].
  assert (Hi : ∀ i, i < S →
    at1 (dydt N Win Mw rs (Vf t) (inlet_at uinf t) (uoutf t) y <$> seq 0 S) i
    = dydt N Win Mw rs (Vf t) (inlet_at uinf t) (uoutf t) y i).
  { intros i Hi. apply at1_lookup.
    by rewrite list_lookup_fmap, lookup_seq_lt. }
  split.
  - intros i Hlt. by rewrite Hi.
  - intros Hm i Hlt. rewrite Hi by done. unfold dydt, outlet_term.
    by rewrite Hm.
Qed.

(** *** One run *)

(** C5. In the mapping a run returns, ["xout"] is [1 − lamda] element by
    element, where [lamda = moles @ q0T.T] is the returned (noisy) trajectory
    projected through the first matrix of the decomposition of
    (N, Win, n0). *)
Theorem xout_is_one_minus_lamda time alpha (w : World F G) d w' :
  run_simulation time alpha w = (Ok d, w') →
  ∃ N Win n0 q0T S0T M0T Q0T moles lamda,
    self_N (obj w) = Some N ∧ self_Win (obj w) = Some Win ∧
    self_n0 (obj w) = Some n0 ∧
    compute_matrices N Win n0 = Ok (q0T, S0T, M0T, Q0T) ∧
    d !! "moles" = Some moles ∧
    matmul moles (transpose q0T) = Ok lamda ∧
    d !! "xout" = Some (pointwise (λ x, fsub (of_Z 1) x) lamda).
Proof.
  destruct w as [o g ds]. intros H.
  apply run_simulation_inv in H as (tr & Hret & -> & ->).
  destruct Hret. eexists _, _, _, _, _, _, _, _, _. cbn [obj].
  split_and!; try eassumption; [done|].
  unfold results. rewrite !lookup_insert_ne by done.
  rewrite lookup_insert_eq. f_equal. unfold sub in r_xout0.
  rewrite elementwise_scalar_l in r_xout0.
  by injection r_xout0.
Qed.

(** C8. In a run that returns, the ["reaction_rate"] entry is every bound
    rate law evaluated at the concentration [moles.T / V(time)] of the
    returned trajectory [moles = sol + noise], stacked and transposed, and
    the ["flow_rate"] entry is [(N.T @ rate * V(time)).T] for that same
    [rate], of shape time steps by S: the rates are those of the noisy
    state. *)
Theorem rates_follow_noisy_state time alpha (w : World F G) d w' :
  run_simulation time alpha w = (Ok d, w') →
  ∃ n0 sol nSpecies cov nSamples noise moles ratelaws Vf N rates rate NTr flow,
    self_n0 (obj w) = Some n0 ∧
    odeint (mole_balance (set_time time (obj w))) n0 time = Ok sol ∧
    multivariate_normal (zeros nSpecies) cov nSamples (rng w)
    = (Ok noise, rng w') ∧
    add sol noise = Ok moles ∧ d !! "moles" = Some moles ∧
    self_ratelaws (obj w) = Some ratelaws ∧ self_V (obj w) = Some Vf ∧
    self_N (obj w) = Some N ∧
    rates_at ratelaws Vf time moles = Ok rates ∧ stack rates = Ok rate ∧
    d !! "reaction_rate" = Some (transpose rate) ∧
    matmul (transpose N) rate = Ok NTr ∧
    mul NTr (V_of Vf time) = Ok flow ∧
    d !! "flow_rate" = Some (transpose flow) ∧
    ∀ S rowsN rate_rows,
      N = Arr2 S rowsN → rate = Arr2 (length time) rate_rows →
      shape (transpose flow) = [length time; S].
Proof.
  destruct w as [o g ds]. intros H.
  apply run_simulation_inv in H as (tr & Hret & -> & ->).
  destruct Hret.
  eexists _, _, _, _, _, _, _, _, _, _, _, _, _, _. cbn [obj rng].
  split_and!; try eassumption; unfold results.
  - done.
  - rewrite lookup_insert_ne by done. by rewrite lookup_insert_eq.
  - rewrite !lookup_insert_ne by done. by rewrite lookup_insert_eq.
  - intros S rowsN rate_rows HN Hrate. rewrite HN, Hrate in r_NTr0.
    eapply flow_rate_shape; [exact r_NTr0|exact r_flow0|].
    by rewrite length_fmap.
Qed.



End properties.

(* ===================================================================== *)
(** ** The properties at work *)
(* ===================================================================== *)

Section witnesses.
Import Exact Decay.

Lemma uin_mismatch_raises_AttributeError_witness :
  (∃ attribute,
     construct (G := nat) N Mw V (Some Winhat) (Some uin_two_streams)
       (Some uout) (Some n0) None
     = Raise (AttributeError attribute)) ∧
  ∀ m, construct (G := nat) N Mw V (Some Winhat) (Some uin_two_streams)
         (Some uout) (Some n0) None
       ≠ Raise (ValueError m).
Proof.
  eapply (uin_mismatch_raises_AttributeError (G := nat)).
  - reflexivity.
  - reflexivity.
  - reflexivity.
  - reflexivity.
  - reflexivity.
  - vm_compute. lia.
Defined.

Lemma construction_is_staged_witness :
  ∃ attribute,
    construct (G := nat) N Mw V (Some Winhat) (Some uin_two_streams)
      (Some uout) (Some n0_two_species) None
    = Raise (AttributeError attribute).
Proof.
  eapply (construction_is_staged (G := nat) N Mw V (Some Winhat)
            (Some uin_two_streams) (Some uout) None n0_two_species).
  - reflexivity.
  - reflexivity.
  - reflexivity.
  - reflexivity.
  - reflexivity.
  - reflexivity.
  - reflexivity.
  - reflexivity.
  - reflexivity.
  - vm_compute. lia.
Defined.

Lemma Win_is_S_by_P_witness :
  ∃ self product Win,
    construct (G := nat) N Mw V (Some Winhat) (Some uin) (Some uout)
      (Some n0) None = Ok self ∧
    matmul (Arr2 1 [[Qcinv (q 1)]]) Winhat = Ok product ∧
    self_Win self = Some Win ∧
    shape Win = [1; 1] ∧ wf Win = true ∧ ravel Win = ravel product.
Proof.
  eapply (Win_is_S_by_P (G := nat) N Mw V (Some Winhat) (Some uin)
            (Some uout) None V Winhat uin uout _ _ _ [q 1] [[q 1]]
            [[Qcinv (q 1)]]); reflexivity.
Defined.

(** Evaluation that leaves the rational arithmetic alone. *)
Ltac weak := lazy -[Qcplus Qcminus Qcmult Qcdiv Qcinv Q2Qc Qccompare].

Lemma mole_balance_spec_witness :
  ∃ N Win Mw rs Vt uin_t uout_t,
    mole_balance reactor (Arr1 [q 1]) (q 0)
    = Ok (Arr1 (dydt N Win Mw rs Vt uin_t uout_t [q 1] <$> seq 0 1)).
Proof.
  eexists _, _, _, _, _, _, _.
  eapply (mole_balance_spec reactor [q 1] (q 0) 1 1).
  constructor.
  11: { eexists. split; [reflexivity|].
        constructor; [reflexivity|constructor]. }
  all: reflexivity.
Defined.

Lemma outlet_division_unguarded_witness :
  ∃ N Win Mw rs Vt uin_t uout_t d,
    mole_balance reactor (Arr1 [q 0]) (q 0) = Ok (Arr1 d) ∧
    total_mass Mw [q 0] = of_Z 0 ∧
    at1 d 0 = fsub (fadd (reaction_term N rs Vt 0) (inlet_term Win uin_t 0))
                   (fdiv (fmul uout_t (at1 [q 0] 0)) (of_Z 0)).
Proof.
  destruct (outlet_division_unguarded reactor [q 0] (q 0) 1 1
              [[q (-1)]]
              (match self_Win reactor with
               | Some (Arr2 _ rows) => rows
               | _ => []
               end)
              [[q 1]] (interpolate (component 0 V))
              (interpolate (component 0 uout))
              {| inlet_at t := (λ j, interpolate (component j uin) t)
                                 <$> seq 0 1;
                 inlet_shape := None |}
              [Qcmult half (at1 ((λ x, fdiv x (interpolate (component 0 V)
                                                   (q 0))) <$> [q 0]) 0)])
    as (d & Hd & _ & _ & Hzero).
  - constructor.
    11: { eexists. split; [reflexivity|].
          constructor; [reflexivity|constructor]. }
    all: reflexivity.
  - assert (Hm : total_mass [[q 1]] [q 0] = of_Z 0)
      by (by apply Qc_is_canon).
    eexists _, _, _, _, _, _, _, d. split; [exact Hd|]. split; [exact Hm|].
    apply (Hzero Hm). lia.
Defined.

Lemma decay_returns alpha : ∃ tr, returns time alpha reactor 0 tr.
Proof.
  eexists {| t_rng := _ |}.
  constructor; cbn [t_n0 t_sol t_nSamples t_nSpecies t_peak t_peaks
    t_noise_std t_noise t_rng t_noisy t_ratelaws t_V t_rates t_reaction_rate
    t_N t_NTr t_flow t_Win t_q0T t_S0T t_M0T t_Q0T t_xr t_xin t_lamda t_xout];
    weak; reflexivity.
Qed.

Lemma decay_run alpha :
  ∃ d w', run_simulation time alpha world = (Ok d, w').
Proof.
  destruct (decay_returns alpha) as [tr Hret].
  eexists _, _. exact (run_simulation_returns time alpha reactor 0 [] tr Hret).
Qed.

Lemma xout_is_one_minus_lamda_witness :
  ∃ d w',
    run_simulation time (q 5) world = (Ok d, w') ∧
    ∃ N Win n0 q0T S0T M0T Q0T moles lamda,
      self_N (obj world) = Some N ∧ self_Win (obj world) = Some Win ∧
      self_n0 (obj world) = Some n0 ∧
      compute_matrices N Win n0 = Ok (q0T, S0T, M0T, Q0T) ∧
      d !! "moles" = Some moles ∧
      matmul moles (transpose q0T) = Ok lamda ∧
      d !! "xout" = Some (pointwise (λ x, fsub (of_Z 1) x) lamda).
Proof.
  destruct (decay_run (q 5)) as (d & w' & Hrun).
  exists d, w'. split; [exact Hrun|].
  exact (xout_is_one_minus_lamda time (q 5) world d w' Hrun).
Defined.

Lemma rates_follow_noisy_state_witness :
  ∃ d w',
    run_simulation time (q 5) world = (Ok d, w') ∧
    ∃ moles ratelaws Vf rates rate,
      d !! "moles" = Some moles ∧
      self_ratelaws (obj world) = Some ratelaws ∧
      self_V (obj world) = Some Vf ∧
      rates_at ratelaws Vf time moles = Ok rates ∧ stack rates = Ok rate ∧
      d !! "reaction_rate" = Some (transpose rate).
Proof.
  destruct (decay_run (q 5)) as (d & w' & Hrun).
  exists d, w'. split; [exact Hrun|].
  destruct (rates_follow_noisy_state time (q 5) world d w' Hrun)
    as (n0 & sol & nSp & cov & nSa & noise & moles & ratelaws & Vf & N &
        rates & rate & NTr & flow &
        _ & _ & _ & _ & Hm & Hr & HV & _ & Hrates & Hstack & Hrr & _).
  exists moles, ratelaws, Vf, rates, rate.
  exact (conj Hm (conj Hr (conj HV (conj Hrates (conj Hstack Hrr))))).
Defined.



End witnesses.
